(** * Health Dashboard: role-based access control and the session client

    A shallow embedding of the TypeScript sources

    - [types/auth.ts]                    (the role enum, [User], [AuthState],
                                          [LoginResponse], [RolePermissions]),
    - [components/Layout/Sidebar.tsx]    ([hasPermission]),
    - [components/Auth/ProtectedRoute.tsx] (the route guard),
    - [services/authService.ts]          (the axios client with its two
                                          interceptors, [login], [logout],
                                          [refreshToken]),

    followed by the properties of the specification, stated on these
    definitions.

    Values are modelled as they exist at run time: a member of the string
    enum [UserRole] is the string it is initialised with, a JavaScript object
    used as a table is a finite map from its own keys, [localStorage] is a
    finite map from keys to strings, a promise is its settled outcome, and the
    network is an arbitrary function from the history of the wire to a
    reply. *)

From Stdlib Require Import ZArith.
From Stdlib Require QArith.
From stdpp Require Import base decidable option list strings gmap.

Local Open Scope string_scope.
Local Open Scope Z_scope.

(* ===================================================================== *)
(** ** types/auth.ts *)
(* ===================================================================== *)

(** [export enum UserRole { MANAGEMENT = 'management', ... }]: a string enum;
    at run time each member is its string. *)
Module UserRole.
Definition MANAGEMENT : string := "management".
Definition DEVOPS : string := "devops".
Definition QA : string := "qa".
Definition DEV : string := "dev".
Definition OTHER : string := "other".

(** The members of the enum, in declaration order. *)
Definition members : list string := [MANAGEMENT; DEVOPS; QA; DEV; OTHER].
End UserRole.

(** [export interface User]. *)
Record User : Type := mkUser {
  id : string;
  username : string;
  email : string;
  firstName : string;
  lastName : string;
  role : string;
  isActive : bool;
  lastLogin : option string;
  createdAt : string;
  updatedAt : string
}.

(** [export interface LoginCredentials]. *)
Record LoginCredentials : Type := mkLoginCredentials {
  cred_username : string;
  cred_password : string
}.

(** [export interface AuthState]: the slice [state.auth] of the store. *)
Record AuthState : Type := mkAuthState {
  user : option User;
  isAuthenticated : bool;
  isLoading : bool;
  error : option string;
  token : option string
}.

(** [export interface LoginResponse]. [checkAuthStatus] and [refreshToken]
    build it from a body that has no [user]; the field is then
    [undefined], here [None]. *)
Record LoginResponse : Type := mkLoginResponse {
  lr_user : option User;
  lr_token : string;
  lr_refreshToken : string
}.

(** [export const RolePermissions: Record<UserRole, string[]>]: an object
    literal with one own property per enum member. *)
Definition RolePermissions : gmap string (list string) :=
  <[UserRole.MANAGEMENT := [
      "dashboard:read";
      "system-health:read";
      "performance:read";
      "alerts:read";
      "alerts:write";
      "users:read";
      "users:write";
      "settings:read";
      "settings:write" ]]>
  (<[UserRole.DEVOPS := [
      "dashboard:read";
      "system-health:read";
      "performance:read";
      "alerts:read";
      "alerts:write";
      "settings:read" ]]>
  (<[UserRole.QA := [
      "dashboard:read";
      "system-health:read";
      "performance:read";
      "settings:read" ]]>
  (<[UserRole.DEV := [
      "dashboard:read";
      "system-health:read";
      "performance:read";
      "settings:read" ]]>
  (<[UserRole.OTHER := [
      "dashboard:read";
      "system-health:read" ]]>
  ∅)))).

(* ===================================================================== *)
(** ** JavaScript completions *)
(* ===================================================================== *)

(** The errors a synchronous expression of the modelled code can raise. *)
Inductive JsError : Type :=
  | TypeError.

(** The outcome of evaluating a synchronous function body. *)
Inductive Completion (A : Type) : Type :=
  | Return (a : A)
  | Throw (e : JsError).
Arguments Return {A} a.
Arguments Throw {A} e.

(* ===================================================================== *)
(** ** components/Layout/Sidebar.tsx: [hasPermission] *)
(* ===================================================================== *)

Module Sidebar.

(** [Array.prototype.includes] on an array of strings. *)
Definition includes (l : list string) (x : string) : bool :=
  bool_decide (x ∈ l).

(** [[
    const hasPermission = (permission: string): boolean => {
      if (!user) return false;
      return RolePermissions[user.role].includes(permission);
    };
    ]]
    [user] is the component's prop. The property read
    [RolePermissions[user.role]] yields the array stored under that key;
    under any other key it yields a value that has no callable
    [includes] ([undefined], or a member inherited from
    [Object.prototype]), and the method call raises a [TypeError]. *)
Definition hasPermission (user : option User) (permission : string)
  : Completion bool :=
  match user with
  | None => Return false
  | Some u =>
      match RolePermissions !! role u with
      | Some permissions => Return (includes permissions permission)
      | None => Throw TypeError
      end
  end.

End Sidebar.

(* ===================================================================== *)
(** ** components/Auth/ProtectedRoute.tsx *)
(* ===================================================================== *)

Module Guard.

(** What the component returns: [null], a [<Navigate to=... replace />]
    element, or the fragment [<>{children}</>]. *)
Inductive Element (C : Type) : Type :=
  | Null
  | Navigate (to : string) (replace : bool)
  | Fragment (children : C).
Arguments Null {C}.
Arguments Navigate {C} to replace.
Arguments Fragment {C} children.

(** [allowedRoles.includes(user.role)]. *)
Definition includes (l : list string) (x : string) : bool :=
  bool_decide (x ∈ l).

(** [[
    const ProtectedRoute = ({ children, allowedRoles }) => {
      const { isAuthenticated, user, isLoading } =
        useAppSelector((state) => state.auth);
      if (isLoading) { return null; }
      if (!isAuthenticated || !user) {
        return <Navigate to="/login" replace />;
      }
      if (allowedRoles && !allowedRoles.includes(user.role)) {
        return <Navigate to="/dashboard" replace />;
      }
      return <>{children}</>;
    };
    ]]
    The optional prop [allowedRoles] is [None] when absent. An array is
    an object, so [allowedRoles &&] holds for every array that is
    present, the empty one included. *)
Definition ProtectedRoute {C : Type} (children : C)
    (allowedRoles : option (list string)) (auth : AuthState) : Element C :=
  if isLoading auth then Null
  else
    match isAuthenticated auth, user auth with
    | true, Some u =>
        match allowedRoles with
        | Some roles =>
            if negb (includes roles (role u))
            then Navigate "/dashboard" true
            else Fragment children
        | None => Fragment children
        end
    | _, _ => Navigate "/login" true
    end.

End Guard.

(* ===================================================================== *)
(** ** The browser and the network, as [authService.ts] sees them *)
(* ===================================================================== *)

Module Axios.

Inductive Method : Type := GET | POST.

(** The bodies the modelled calls send. *)
Inductive Body : Type :=
  | NoBody
  | CredentialsBody (credentials : LoginCredentials)
  | RefreshBody (refresh_token : string).

(** A request configuration. [_retry] is the property the response
    interceptor adds to the object; it is absent, hence falsy, on a
    configuration that [apiClient.get] or [apiClient.post] has just
    built, and axios keeps it when the configuration is passed to the
    instance again. *)
Record AxiosRequestConfig : Type := mkConfig {
  url : string;
  baseURL : option string;
  method : Method;
  data : Body;
  headers : gmap string string;
  _retry : bool
}.

Definition set_header (k v : string) (c : AxiosRequestConfig)
  : AxiosRequestConfig :=
  mkConfig (url c) (baseURL c) (method c) (data c)
           (<[k := v]> (headers c)) (_retry c).

Definition set_retry (b : bool) (c : AxiosRequestConfig)
  : AxiosRequestConfig :=
  mkConfig (url c) (baseURL c) (method c) (data c) (headers c) b.

(** The part of a response body the code destructures
    ([const { user, token, refreshToken } = response.data]), read at the
    type [LoginResponse] gives it; [user] is absent from the bodies of
    some end points. *)
Record ResponseData : Type := mkData {
  data_user : option User;
  data_token : string;
  data_refreshToken : string
}.

Record AxiosResponse : Type := mkResponse {
  status : Z;
  response_data : ResponseData;
  config : AxiosRequestConfig
}.

(** An [AxiosError]: [response] is [undefined] when no reply arrived. *)
Record AxiosError : Type := mkError {
  error_config : AxiosRequestConfig;
  error_response : option (Z * ResponseData)
}.

(** What a promise of the modelled code can be rejected with. *)
Inductive Rejection : Type :=
  | OfAxios (e : AxiosError)
  | OfError (message : string).

(** A settled promise. *)
Inductive Promise (A : Type) : Type :=
  | Fulfilled (a : A)
  | Rejected (r : Rejection).
Arguments Fulfilled {A} a.
Arguments Rejected {A} r.

(** The two axios instances of the file: [apiClient], which carries the
    interceptors, and the library's default instance [axios], which the
    refresh call uses and which carries none. *)
Inductive AxiosInstance : Type := ApiClient | GlobalAxios.

(** One request put on the wire. *)
Record Sent : Type := mkSent {
  via : AxiosInstance;
  request : AxiosRequestConfig
}.

(** What comes back for it. *)
Inductive Reply : Type :=
  | Response (status : Z) (body : ResponseData)
  | NoResponse.

(** axios's default [validateStatus]. *)
Definition validateStatus (status : Z) : bool :=
  (200 <=? status) && (status <? 300).

(** How axios settles the promise of a request: a reply whose status
    passes [validateStatus] fulfils it; any other reply, and no reply at
    all, rejects it with an [AxiosError] that carries the configuration
    sent. *)
Definition settle (c : AxiosRequestConfig) (r : Reply)
  : Promise AxiosResponse :=
  match r with
  | Response st body =>
      if validateStatus st
      then Fulfilled (mkResponse st body c)
      else Rejected (OfAxios (mkError c (Some (st, body))))
  | NoResponse => Rejected (OfAxios (mkError c None))
  end.

(** The default headers of both instances. *)
Definition default_headers : gmap string string :=
  {[ "Content-Type" := "application/json" ]}.

End Axios.

Export Axios.

(** The state the module acts on: the browser's [localStorage], the
    address [window.location.href], and the requests sent so far, oldest
    first. *)
Record World : Type := mkWorld {
  localStorage : gmap string string;
  location_href : string;
  wire : list Sent
}.

Definition record_sent (s : Sent) (w : World) : World :=
  mkWorld (localStorage w) (location_href w) (wire w ++ [s]).

Definition getItem (k : string) (w : World) : option string :=
  localStorage w !! k.

Definition setItem (k v : string) (w : World) : World :=
  mkWorld (<[k := v]> (localStorage w)) (location_href w) (wire w).

Definition removeItem (k : string) (w : World) : World :=
  mkWorld (delete k (localStorage w)) (location_href w) (wire w).

Definition set_location_href (h : string) (w : World) : World :=
  mkWorld (localStorage w) h (wire w).

(** The truth value of [localStorage.getItem(k)]: [null] and the empty
    string are falsy. *)
Definition truthy (v : option string) : bool :=
  match v with
  | Some s => negb (String.eqb s "")
  | None => false
  end.

(** Modelled from the spec: the Session snapshot of section 3 of the
    specification, [{isAuthenticated, accessToken, refreshToken}], read off
    the durable storage that the session client owns. The Redux slice that
    caches the session ([store/slices/authSlice.ts]) is missing from the
    sources; a session is authenticated when an access token is held. *)
Record Session : Type := mkSession {
  session_isAuthenticated : bool;
  session_accessToken : option string;
  session_refreshToken : option string
}.

(** Modelled from the spec: the Session that goes with a state of the
    browser. *)
Definition session_of (w : World) : Session :=
  mkSession (bool_decide (is_Some (getItem "token" w)))
            (getItem "token" w)
            (getItem "refreshToken" w).

(* ===================================================================== *)
(** ** services/authService.ts *)
(* ===================================================================== *)

Module AuthService.
Section WithBackend.

(** [process.env.REACT_APP_API_URL || 'http://localhost:8000/api']. *)
Variable API_BASE_URL : string.

(** The backend and the transport together: the reply to a request,
    given everything that was sent before it. *)
Variable server : list Sent -> Sent -> Reply.

(** Sending one request and settling its promise: the core of an axios
    instance, below its interceptors. *)
Definition dispatchRequest (i : AxiosInstance) (c : AxiosRequestConfig)
    (w : World) : Promise AxiosResponse * World :=
  let s := mkSent i c in
  (settle c (server (wire w) s), record_sent s w).

(** [axios.post(url, data)] on the default instance. *)
Definition axios_post (u : string) (b : Body) (w : World)
  : Promise AxiosResponse * World :=
  dispatchRequest GlobalAxios
    (mkConfig u None POST b default_headers false) w.

(** [[
    apiClient.interceptors.request.use((config) => {
      const token = localStorage.getItem('token');
      if (token) { config.headers.Authorization = `Bearer ${token}`; }
      return config;
    }, ...);
    ]] *)
Definition request_interceptor (c : AxiosRequestConfig) (w : World)
  : AxiosRequestConfig :=
  match getItem "token" w with
  | Some token =>
      if truthy (Some token)
      then set_header "Authorization" ("Bearer " +:+ token) c
      else c
  | None => c
  end.

(** [error.response?.status === 401]. *)
Definition status_is_401 (e : AxiosError) : bool :=
  match error_response e with
  | Some (st, _) => st =? 401
  | None => false
  end.

(** The rejection handler of the response interceptor. [again] stands
    for the instance itself, called at [return apiClient(originalRequest)].
    [[
    async (error) => {
      const originalRequest = error.config;
      if (error.response?.status === 401 && !originalRequest._retry) {
        originalRequest._retry = true;
        try {
          const refreshToken = localStorage.getItem('refreshToken');
          if (refreshToken) {
            const response = await axios.post(`${API_BASE_URL}/auth/refresh`,
                                              { refresh_token: refreshToken });
            const { token } = response.data;
            localStorage.setItem('token', token);
            originalRequest.headers.Authorization = `Bearer ${token}`;
            return apiClient(originalRequest);
          }
        } catch (refreshError) {
          localStorage.removeItem('token');
          localStorage.removeItem('refreshToken');
          window.location.href = '/login';
        }
      }
      return Promise.reject(error);
    }
    ]]
    [originalRequest] is the object [error.config]: setting [_retry] on
    it shows in the error that is rejected in the end. The promise of the
    repeated request is returned, not awaited, inside [try]: its
    rejection is the handler's outcome and does not reach [catch]. *)
Definition response_rejected
    (again : AxiosRequestConfig -> World
             -> option (Promise AxiosResponse * World))
    (error : AxiosError) (w : World)
  : option (Promise AxiosResponse * World) :=
  let originalRequest := error_config error in
  if status_is_401 error && negb (_retry originalRequest) then
    let originalRequest := set_retry true originalRequest in
    let error := mkError originalRequest (error_response error) in
    match getItem "refreshToken" w with
    | Some refreshToken =>
        if truthy (Some refreshToken) then
          match axios_post (API_BASE_URL +:+ "/auth/refresh")
                           (RefreshBody refreshToken) w with
          | (Fulfilled response, w) =>
              let token := data_token (response_data response) in
              let w := setItem "token" token w in
              let originalRequest :=
                set_header "Authorization" ("Bearer " +:+ token)
                           originalRequest in
              again originalRequest w
          | (Rejected refreshError, w) =>
              let w := removeItem "token" w in
              let w := removeItem "refreshToken" w in
              let w := set_location_href "/login" w in
              Some (Rejected (OfAxios error), w)
          end
        else Some (Rejected (OfAxios error), w)
    | None => Some (Rejected (OfAxios error), w)
    end
  else Some (Rejected (OfAxios error), w).

(** A request through [apiClient]: the request interceptor, the wire,
    then the response interceptor, whose fulfilment handler is the
    identity. The handler for rejections calls the instance again; the
    fuel bounds that nesting, and [None] means that it ran out. *)
Fixpoint apiClient (fuel : nat) (c : AxiosRequestConfig) (w : World)
  : option (Promise AxiosResponse * World) :=
  match fuel with
  | O => None
  | S fuel' =>
      match dispatchRequest ApiClient (request_interceptor c w) w with
      | (Fulfilled response, w') => Some (Fulfilled response, w')
      | (Rejected (OfAxios error), w') =>
          response_rejected (apiClient fuel') error w'
      | (Rejected (OfError m), w') => Some (Rejected (OfError m), w')
      end
  end.

(** The configuration of [apiClient.post(url, data)]: a new object, merged
    with the defaults given to [axios.create]. *)
Definition post_config (u : string) (b : Body) : AxiosRequestConfig :=
  mkConfig u (Some API_BASE_URL) POST b default_headers false.

(** [apiClient.post(url, data)]. *)
Definition apiClient_post (fuel : nat) (u : string) (b : Body) (w : World)
  : option (Promise AxiosResponse * World) :=
  apiClient fuel (post_config u b) w.

(** [[
    async login(credentials) {
      const response = await apiClient.post('/auth/login', credentials);
      const { user, token, refreshToken } = response.data;
      localStorage.setItem('token', token);
      localStorage.setItem('refreshToken', refreshToken);
      return { user, token, refreshToken };
    }
    ]] *)
Definition login (fuel : nat) (credentials : LoginCredentials) (w : World)
  : option (Promise LoginResponse * World) :=
  match apiClient_post fuel "/auth/login" (CredentialsBody credentials) w with
  | Some (Fulfilled response, w) =>
      let d := response_data response in
      let w := setItem "token" (data_token d) w in
      let w := setItem "refreshToken" (data_refreshToken d) w in
      Some (Fulfilled
              (mkLoginResponse (data_user d) (data_token d)
                               (data_refreshToken d)), w)
  | Some (Rejected r, w) => Some (Rejected r, w)
  | None => None
  end.

(** [[
    async logout() {
      try { await apiClient.post('/auth/logout'); }
      finally {
        localStorage.removeItem('token');
        localStorage.removeItem('refreshToken');
      }
    }
    ]]
    There is no [catch]: after the [finally] block a rejection of the
    call is the rejection of [logout]. *)
Definition logout (fuel : nat) (w : World) : option (Promise unit * World) :=
  match apiClient_post fuel "/auth/logout" NoBody w with
  | Some (outcome, w) =>
      let w := removeItem "token" w in
      let w := removeItem "refreshToken" w in
      match outcome with
      | Fulfilled _ => Some (Fulfilled tt, w)
      | Rejected r => Some (Rejected r, w)
      end
  | None => None
  end.

(** [[
    async refreshToken() {
      const refreshToken = localStorage.getItem('refreshToken');
      if (!refreshToken) { throw new Error('No refresh token available'); }
      const response = await axios.post(`${API_BASE_URL}/auth/refresh`,
                                        { refresh_token: refreshToken });
      const { user, token } = response.data;
      localStorage.setItem('token', token);
      return { user, token, refreshToken };
    }
    ]] *)
Definition refreshToken (w : World) : Promise LoginResponse * World :=
  match getItem "refreshToken" w with
  | Some refreshToken =>
      if truthy (Some refreshToken) then
        match axios_post (API_BASE_URL +:+ "/auth/refresh")
                         (RefreshBody refreshToken) w with
        | (Fulfilled response, w) =>
            let d := response_data response in
            let w := setItem "token" (data_token d) w in
            (Fulfilled
               (mkLoginResponse (data_user d) (data_token d) refreshToken),
             w)
        | (Rejected r, w) => (Rejected r, w)
        end
      else (Rejected (OfError "No refresh token available"), w)
  | None => (Rejected (OfError "No refresh token available"), w)
  end.

(** The configuration of [apiClient.get(url)]. *)
Definition get_config (u : string) : AxiosRequestConfig :=
  mkConfig u (Some API_BASE_URL) GET NoBody default_headers false.

(** [apiClient.get(url)]. *)
Definition apiClient_get (fuel : nat) (u : string) (w : World)
  : option (Promise AxiosResponse * World) :=
  apiClient fuel (get_config u) w.

(** [[
    async checkAuthStatus() {
      const response = await apiClient.get('/auth/me');
      const { user, token } = response.data;
      const refreshToken = localStorage.getItem('refreshToken') || '';
      return { user, token, refreshToken };
    }
    ]] *)
Definition checkAuthStatus (fuel : nat) (w : World)
  : option (Promise LoginResponse * World) :=
  match apiClient_get fuel "/auth/me" w with
  | Some (Fulfilled response, w) =>
      let d := response_data response in
      let refreshToken :=
        match getItem "refreshToken" w with
        | Some stored => if truthy (Some stored) then stored else ""
        | None => ""
        end in
      Some (Fulfilled (mkLoginResponse (data_user d) (data_token d)
                                       refreshToken), w)
  | Some (Rejected r, w) => Some (Rejected r, w)
  | None => None
  end.

End WithBackend.
End AuthService.

(* ===================================================================== *)
(** ** Observations on a run *)
(* ===================================================================== *)

#[global] Instance AxiosInstance_eq_dec : EqDecision AxiosInstance.
Proof. solve_decision. Defined.

(** How many of the requests [l] went through the instance [i]. The only
    request the module sends through the default instance is the refresh
    call. *)
Definition sent_by (i : AxiosInstance) (l : list Sent) : nat :=
  length (filter (λ s, via s = i) l).

(** The request that [apiClient] puts on the wire for the configuration
    [c]: the configuration as the request interceptor leaves it. *)
Definition first_call (c : AxiosRequestConfig) (w : World) : Sent :=
  mkSent ApiClient (AuthService.request_interceptor c w).

(** The refresh call for the stored refresh token [rt]. *)
Definition refresh_call (API_BASE_URL rt : string) : Sent :=
  mkSent GlobalAxios
    (mkConfig (API_BASE_URL +:+ "/auth/refresh") None POST (RefreshBody rt)
              default_headers false).

(** Whether a reply fulfils the promise of its request. *)
Definition succeeds (r : Reply) : bool :=
  match r with
  | Response st _ => validateStatus st
  | NoResponse => false
  end.

(* ===================================================================== *)
(** ** Sample data *)
(* ===================================================================== *)

Module Sample.

Definition user_with_role (r : string) : User :=
  mkUser "42" "sam" "sam@example.org" "Sam" "Doe" r true None
         "2024-01-01T00:00:00Z" "2024-01-01T00:00:00Z".

Definition manager : User := user_with_role UserRole.MANAGEMENT.
Definition operator : User := user_with_role UserRole.DEVOPS.

(** A user record whose role string is outside the enum, as a backend
    can send it. *)
Definition stranger : User := user_with_role "admin".

Definition signed_in (u : User) : AuthState :=
  mkAuthState (Some u) true false None (Some "t0").

(** The store while the session is being restored. *)
Definition restoring : AuthState :=
  mkAuthState None false true None None.

Definition signed_out : AuthState :=
  mkAuthState None false false None None.

Definition base : string := "http://localhost:8000/api".

(** A backend that answers the n-th request on the wire with the n-th
    reply of a script and stays silent afterwards. *)
Definition scripted (script : list Reply) (history : list Sent) (s : Sent)
  : Reply :=
  default NoResponse (script !! length history).

Definition no_data : ResponseData := mkData None "" "".

Definition fresh_token : ResponseData := mkData None "fresh" "".

Definition welcome : ResponseData :=
  mkData (Some operator) "a1" "r1".

(** A browser that holds the tokens of an earlier login. *)
Definition holding_tokens : World :=
  mkWorld (<["token" := "stale"]> (<["refreshToken" := "r0"]> ∅))
          "/dashboard" [].

(** A browser with an empty storage. *)
Definition blank : World := mkWorld ∅ "/login" [].

Definition get_metrics : AxiosRequestConfig :=
  mkConfig "/dashboard/metrics" (Some base) GET NoBody default_headers false.

Definition credentials : LoginCredentials :=
  mkLoginCredentials "sam" "secret".

(** The access token has expired: a 401, a refresh that succeeds, and a
    401 again for the repeated request. *)
Definition expired_then_refreshed : list Sent → Sent → Reply :=
  scripted [Response 401 no_data; Response 200 fresh_token;
            Response 401 no_data].

(** Both tokens have expired: a 401, and a 401 for the refresh call. *)
Definition expired_for_good : list Sent → Sent → Reply :=
  scripted [Response 401 no_data; Response 401 no_data].

(** One 401 and silence. *)
Definition refusing : list Sent → Sent → Reply :=
  scripted [Response 401 no_data].

(** The backend cannot be reached. *)
Definition unreachable : list Sent → Sent → Reply := scripted [].

(** The first request is answered with a session. *)
Definition accepting : list Sent → Sent → Reply :=
  scripted [Response 200 welcome].

(** The first request is answered with a new access token. *)
Definition refreshing : list Sent → Sent → Reply :=
  scripted [Response 200 fresh_token].

End Sample.

(* ===================================================================== *)
(** ** components/Layout/Sidebar.tsx: the profile chip and the menu *)
(* ===================================================================== *)

Module SidebarView.

(** [[
    const getRoleColor = (role: UserRole): string => {
      switch (role) {
        case UserRole.MANAGEMENT: return '#1976d2';
        case UserRole.DEVOPS:     return '#dc004e';
        case UserRole.QA:         return '#2e7d32';
        case UserRole.DEV:        return '#ed6c02';
        default:                  return '#757575';
      }
    };
    ]] *)
Definition getRoleColor (role : string) : string :=
  if String.eqb role UserRole.MANAGEMENT then "#1976d2"
  else if String.eqb role UserRole.DEVOPS then "#dc004e"
  else if String.eqb role UserRole.QA then "#2e7d32"
  else if String.eqb role UserRole.DEV then "#ed6c02"
  else "#757575".

(** [user?.role || UserRole.OTHER], the argument the chip passes on: the
    role of the user, or [OTHER] when there is no user or the role is the
    empty string. *)
Definition chip_role (user : option User) : string :=
  match user with
  | Some u => if String.eqb (role u) "" then UserRole.OTHER else role u
  | None => UserRole.OTHER
  end.

(** An entry of [menuItems]; the icon is left out. *)
Record MenuItem : Type := mkMenuItem {
  text : string;
  path : string;
  permission : string
}.

Definition menuItems : list MenuItem := [
  mkMenuItem "Dashboard" "/dashboard" "dashboard:read";
  mkMenuItem "System Health" "/system-health" "system-health:read";
  mkMenuItem "Performance" "/performance" "performance:read";
  mkMenuItem "Alerts" "/alerts" "alerts:read";
  mkMenuItem "Users" "/users" "users:read";
  mkMenuItem "Settings" "/settings" "settings:read"
].

(** What the menu renders for an item: the [ListItem] with its key, the
    [selected] flag of its button and the path its click navigates to. *)
Record ListItem : Type := mkListItem {
  key : string;
  selected : bool;
  target : string
}.

(** [Array.prototype.map] with a callback that can raise: the elements
    are visited in order and the first exception ends the call. *)
Fixpoint Array_map {A B : Type} (f : A → Completion B) (l : list A)
  : Completion (list B) :=
  match l with
  | [] => Return []
  | x :: rest =>
      match f x with
      | Throw e => Throw e
      | Return y =>
          match Array_map f rest with
          | Throw e => Throw e
          | Return ys => Return (y :: ys)
          end
      end
  end.

(** [[
    {menuItems.map((item) => {
      if (!hasPermission(item.permission)) return null;
      const isActive = location.pathname === item.path;
      return (
        <ListItem key={item.text} disablePadding>
          <ListItemButton selected={isActive}
                          onClick={() => { navigate(item.path); ... }}>
          ...
    })}
    ]]
    [null] is [None]. *)
Definition menu (user : option User) (pathname : string)
  : Completion (list (option ListItem)) :=
  Array_map
    (λ item,
       match Sidebar.hasPermission user (permission item) with
       | Throw e => Throw e
       | Return false => Return None
       | Return true =>
           Return (Some (mkListItem (text item)
                                    (String.eqb pathname (path item))
                                    (path item)))
       end)
    menuItems.

End SidebarView.

(* ===================================================================== *)
(** ** App.tsx: the route table *)
(* ===================================================================== *)

Module App.

Inductive Page : Type :=
  | Login | Dashboard | SystemHealth | Performance | Alerts | Users
  | Settings | NotFound.

(** The [<Route>] that the router has matched for the current location:
    [/login], the index route of [/], one of its six children, or the
    catch-all [*]. Matching a location against the paths is the
    router's. *)
Inductive Matched : Type :=
  | AtLogin | AtIndex | AtDashboard | AtSystemHealth | AtPerformance
  | AtAlerts | AtUsers | AtSettings | AtNoMatch.

(** The [element] of a child route of [/], rendered where [Layout] has
    its outlet: a page, a page inside a [ProtectedRoute], or the index
    route's [<Navigate to="/dashboard" replace />]. *)
Inductive Outlet : Type :=
  | Plain (page : Page)
  | Guarded (element : Guard.Element Page)
  | IndexNavigate (to : string) (replace : bool).

(** What [App] returns: the progress indicator, or the element of the
    matched top-level route. [Layout] is not among the sources; it stands
    here as the constructor that holds the outlet. *)
Inductive View : Type :=
  | CircularProgress
  | LoginRoute (element : Guard.Element Page)
  | LayoutRoute (element : Guard.Element Outlet)
  | NotFoundRoute.

(** The children of the route [/]. *)
Definition outlet (m : Matched) (auth : AuthState) : Outlet :=
  match m with
  | AtDashboard => Plain Dashboard
  | AtSystemHealth => Plain SystemHealth
  | AtPerformance =>
      Guarded (Guard.ProtectedRoute Performance
                 (Some [UserRole.DEVOPS; UserRole.QA; UserRole.DEV;
                        UserRole.MANAGEMENT]) auth)
  | AtAlerts =>
      Guarded (Guard.ProtectedRoute Alerts
                 (Some [UserRole.DEVOPS; UserRole.MANAGEMENT]) auth)
  | AtUsers =>
      Guarded (Guard.ProtectedRoute Users (Some [UserRole.MANAGEMENT]) auth)
  | AtSettings => Plain Settings
  | _ => IndexNavigate "/dashboard" true
  end.

(** [[
    function App() {
      const { isAuthenticated, isLoading, user } =
        useAppSelector((state) => state.auth);
      ...
      if (isLoading) { return (<Box ...><CircularProgress size={60} /></Box>); }
      return (
        <Routes>
          <Route path="/login"
                 element={isAuthenticated
                          ? <Navigate to="/dashboard" replace /> : <Login />} />
          <Route path="/"
                 element={<ProtectedRoute><Layout /></ProtectedRoute>}>
            <Route index element={<Navigate to="/dashboard" replace />} />
            <Route path="dashboard" element={<Dashboard />} />
            ...
          </Route>
          <Route path="*" element={<NotFound />} />
        </Routes>);
    }
    ]] *)
Definition App (m : Matched) (auth : AuthState) : View :=
  if isLoading auth then CircularProgress
  else
    match m with
    | AtLogin =>
        LoginRoute (if isAuthenticated auth
                    then Guard.Navigate "/dashboard" true
                    else Guard.Fragment Login)
    | AtNoMatch => NotFoundRoute
    | _ => LayoutRoute (Guard.ProtectedRoute (outlet m auth) None auth)
    end.

(** What a view amounts to on the screen. A [Navigate] element, wherever
    it is rendered, replaces the location; [null] renders nothing. *)
Inductive Screen : Type :=
  | Progress
  | Nothing
  | Shows (page : Page)
  | GoesTo (to : string).

Definition screen_of_element (e : Guard.Element Page) : Screen :=
  match e with
  | Guard.Null => Nothing
  | Guard.Navigate to _ => GoesTo to
  | Guard.Fragment page => Shows page
  end.

Definition screen (v : View) : Screen :=
  match v with
  | CircularProgress => Progress
  | LoginRoute e => screen_of_element e
  | NotFoundRoute => Shows NotFound
  | LayoutRoute Guard.Null => Nothing
  | LayoutRoute (Guard.Navigate to _) => GoesTo to
  | LayoutRoute (Guard.Fragment (Plain page)) => Shows page
  | LayoutRoute (Guard.Fragment (Guarded e)) => screen_of_element e
  | LayoutRoute (Guard.Fragment (IndexNavigate to _)) => GoesTo to
  end.

(** The route that matches a path written in the sources, as a target of
    [Navigate] or of a menu entry. Other locations are left to the
    router. *)
Definition route_of (pathname : string) : option Matched :=
  if String.eqb pathname "/login" then Some AtLogin
  else if String.eqb pathname "/" then Some AtIndex
  else if String.eqb pathname "/dashboard" then Some AtDashboard
  else if String.eqb pathname "/system-health" then Some AtSystemHealth
  else if String.eqb pathname "/performance" then Some AtPerformance
  else if String.eqb pathname "/alerts" then Some AtAlerts
  else if String.eqb pathname "/users" then Some AtUsers
  else if String.eqb pathname "/settings" then Some AtSettings
  else None.

(** Rendering, and rendering again after each [Navigate], with the store
    as it is: the screen on which this comes to rest, if it does within
    [hops] navigations. *)
Fixpoint settle_at (hops : nat) (m : Matched) (auth : AuthState)
  : option Screen :=
  match screen (App m auth) with
  | GoesTo to =>
      match hops, route_of to with
      | S hops', Some m' => settle_at hops' m' auth
      | _, _ => None
      end
  | s => Some s
  end.

End App.

(* ===================================================================== *)
(** ** store/slices/dashboardSlice.ts *)
(* ===================================================================== *)

Module DashboardSlice.
Section Numbers.

(** The type [number] of the fields; the slice stores these values and
    computes nothing with them. *)
Variable number : Type.

Record DashboardMetrics : Type := mkMetrics {
  cpu : number;
  memory : number;
  disk : number;
  network : number
}.

Record PerformanceData : Type := mkPerformanceData {
  performance_time : string;
  performance_cpu : number;
  performance_memory : number;
  performance_disk : number
}.

Record AlertData : Type := mkAlertData {
  alert_severity : string;
  alert_count : number;
  alert_color : string
}.

Record RecentAlert : Type := mkRecentAlert {
  recent_id : number;
  recent_message : string;
  recent_severity : string;
  recent_time : string
}.

Record DashboardState : Type := mkDashboardState {
  metrics : option DashboardMetrics;
  performanceData : list PerformanceData;
  alertData : list AlertData;
  recentAlerts : list RecentAlert;
  isLoading : bool;
  error : option string
}.

Definition initialState : DashboardState :=
  mkDashboardState None [] [] [] false None.

(** What [fetchDashboardData] is fulfilled with. *)
Record Fetched : Type := mkFetched {
  fetched_metrics : DashboardMetrics;
  fetched_performanceData : list PerformanceData;
  fetched_alertData : list AlertData;
  fetched_recentAlerts : list RecentAlert
}.

(** The actions the slice has a case for, and [OtherAction] for every
    action it has none for. The payload of a rejection is the value given
    to [rejectWithValue], absent when the thunk was rejected without. *)
Inductive Action : Type :=
  | clearError
  | updateMetrics (payload : DashboardMetrics)
  | fetchDashboardData_pending
  | fetchDashboardData_fulfilled (payload : Fetched)
  | fetchDashboardData_rejected (payload : option string)
  | OtherAction.

(** [[
    reducers: {
      clearError: (state) => { state.error = null; },
      updateMetrics: (state, action) => { state.metrics = action.payload; },
    },
    extraReducers: (builder) => { builder
      .addCase(fetchDashboardData.pending, (state) => {
        state.isLoading = true; state.error = null; })
      .addCase(fetchDashboardData.fulfilled, (state, action) => {
        state.isLoading = false;
        state.metrics = action.payload.metrics;
        state.performanceData = action.payload.performanceData;
        state.alertData = action.payload.alertData;
        state.recentAlerts = action.payload.recentAlerts;
        state.error = null; })
      .addCase(fetchDashboardData.rejected, (state, action) => {
        state.isLoading = false;
        state.error = action.payload as string; });
    }
    ]] *)
Definition reducer (state : DashboardState) (action : Action)
  : DashboardState :=
  match action with
  | clearError =>
      mkDashboardState (metrics state) (performanceData state)
        (alertData state) (recentAlerts state) (isLoading state) None
  | updateMetrics payload =>
      mkDashboardState (Some payload) (performanceData state)
        (alertData state) (recentAlerts state) (isLoading state)
        (error state)
  | fetchDashboardData_pending =>
      mkDashboardState (metrics state) (performanceData state)
        (alertData state) (recentAlerts state) true None
  | fetchDashboardData_fulfilled payload =>
      mkDashboardState (Some (fetched_metrics payload))
        (fetched_performanceData payload) (fetched_alertData payload)
        (fetched_recentAlerts payload) false None
  | fetchDashboardData_rejected payload =>
      mkDashboardState (metrics state) (performanceData state)
        (alertData state) (recentAlerts state) false payload
  | OtherAction => state
  end.

(** The state of the slice after the actions [actions], dispatched in
    order to a new store. *)
Definition after (actions : list Action) : DashboardState :=
  fold_left reducer actions initialState.

(** The last action of the fetch among [actions], if there is one. *)
Fixpoint last_fetch (actions : list Action) (seen : option Action)
  : option Action :=
  match actions with
  | [] => seen
  | fetchDashboardData_pending :: rest =>
      last_fetch rest (Some fetchDashboardData_pending)
  | fetchDashboardData_fulfilled p :: rest =>
      last_fetch rest (Some (fetchDashboardData_fulfilled p))
  | fetchDashboardData_rejected p :: rest =>
      last_fetch rest (Some (fetchDashboardData_rejected p))
  | _ :: rest => last_fetch rest seen
  end.

(** The flags of a state agree with the last action of the fetch:
    [isLoading] is set exactly when it is [pending], and an error is the
    payload of the rejection it is. *)
Definition flags_agree (s : DashboardState) (seen : option Action) : Prop :=
  (isLoading s = true ↔ seen = Some fetchDashboardData_pending)
  ∧ (∀ e, error s = Some e →
          seen = Some (fetchDashboardData_rejected (Some e))).

End Numbers.
End DashboardSlice.

(* ===================================================================== *)
(** ** pages/Dashboard/Dashboard.tsx: the colour and the icon of a metric *)
(* ===================================================================== *)

Module DashboardPage.

(** A JavaScript number, as far as [>=] can tell: a finite double is the
    rational it denotes; [NaN] and the two infinities are themselves. *)
Inductive number : Type :=
  | NaN
  | NegInfinity
  | Finite (q : QArith_base.Q)
  | PosInfinity.

(** A number literal of the source. *)
Definition literal (z : Z) : number := Finite (QArith_base.inject_Z z).

(** [a >= b]: false as soon as one side is [NaN]. *)
Definition ge (a b : number) : bool :=
  match a, b with
  | NaN, _ | _, NaN => false
  | PosInfinity, _ => true
  | _, NegInfinity => true
  | NegInfinity, _ => false
  | Finite _, PosInfinity => false
  | Finite x, Finite y => QArith_base.Qle_bool y x
  end.

(** [[
    const getMetricColor = (value: number) => {
      if (value >= 80) return 'error';
      if (value >= 60) return 'warning';
      return 'success';
    };
    ]] *)
Definition getMetricColor (value : number) : string :=
  if ge value (literal 80) then "error"
  else if ge value (literal 60) then "warning"
  else "success".

(** The icons of the page, [<Error color=... />] and the like. *)
Inductive Glyph : Type := Error | Warning | CheckCircle.

Record Icon : Type := mkIcon {
  glyph : Glyph;
  color : string
}.

(** [[
    const getMetricIcon = (value: number) => {
      if (value >= 80) return <Error color="error" />;
      if (value >= 60) return <Warning color="warning" />;
      return <CheckCircle color="success" />;
    };
    ]] *)
Definition getMetricIcon (value : number) : Icon :=
  if ge value (literal 80) then mkIcon Error "error"
  else if ge value (literal 60) then mkIcon Warning "warning"
  else mkIcon CheckCircle "success".

(** [[
    const getSeverityIcon = (severity: string) => {
      switch (severity) {
        case 'critical': return <Error color="error" />;
        case 'warning':  return <Warning color="warning" />;
        case 'success':  return <CheckCircle color="success" />;
        default:         return <CheckCircle color="info" />;
      }
    };
    ]] *)
Definition getSeverityIcon (severity : string) : Icon :=
  if String.eqb severity "critical" then mkIcon Error "error"
  else if String.eqb severity "warning" then mkIcon Warning "warning"
  else if String.eqb severity "success" then mkIcon CheckCircle "success"
  else mkIcon CheckCircle "info".

End DashboardPage.

(* ===================================================================== *)
(** ** More sample data *)
(* ===================================================================== *)

Module Scenario.

(** A login that is accepted, then a [/auth/me] that is answered. *)
Definition login_then_me : list Sent → Sent → Reply :=
  Sample.scripted [Response 200 Sample.welcome;
                   Response 200 Sample.fresh_token].

Definition guest : User := Sample.user_with_role UserRole.OTHER.
Definition developer : User := Sample.user_with_role UserRole.DEV.

(** A login that is refused with a status other than 401. *)
Definition forbidden : list Sent → Sent → Reply :=
  Sample.scripted [Response 403 Sample.no_data].

(** A 401, a refresh that succeeds, and the repeated request accepted. *)
Definition refused_then_accepted : list Sent → Sent → Reply :=
  Sample.scripted [Response 401 Sample.no_data;
                   Response 200 Sample.fresh_token;
                   Response 200 Sample.welcome].

(** A store that says authenticated and has no user. *)
Definition half_restored : AuthState :=
  mkAuthState None true false None (Some "t0").

(** The menu entry for the alerts page, on that page. *)
Definition alerts_entry : SidebarView.ListItem :=
  SidebarView.mkListItem "Alerts" true "/alerts".

(** The browser after the login of [Sample.accepting]. *)
Definition after_login : World :=
  mkWorld (<["refreshToken" := "r1"]> (<["token" := "a1"]> ∅)) "/login"
    [first_call (AuthService.post_config Sample.base "/auth/login"
                   (CredentialsBody Sample.credentials)) Sample.blank].

(** A fetch that fails, and the error dismissed. *)
Definition failed_fetch : list (DashboardSlice.Action Z) :=
  [DashboardSlice.fetchDashboardData_pending Z;
   DashboardSlice.fetchDashboardData_rejected Z (Some "timeout");
   DashboardSlice.clearError Z].

End Scenario.

(* ===================================================================== *)
(** * Properties *)
(* ===================================================================== *)

(** ** The permission table *)

Lemma RolePermissions_unmapped (r : string) :
  r ∉ UserRole.members → RolePermissions !! r = None.
Proof.
  unfold UserRole.members. intros Hr.
  repeat (rewrite not_elem_of_cons in Hr; destruct Hr as [? Hr]).
  unfold RolePermissions.
  repeat (rewrite lookup_insert_ne; [| congruence]).
  apply lookup_empty.
Qed.

Lemma RolePermissions_mapped (r : string) :
  r ∈ UserRole.members → is_Some (RolePermissions !! r).
Proof.
  unfold UserRole.members. intros Hr.
  repeat (apply elem_of_cons in Hr; destruct Hr as [-> | Hr]);
    try (eexists; reflexivity).
  inversion Hr.
Qed.

(** C9. Whatever permission is asked about, [hasPermission] answers
    [false], and raises nothing, when there is no user. *)
Theorem hasPermission_without_user (permission : string) :
  Sidebar.hasPermission None permission = Return false.
Proof. reflexivity. Qed.

(** C2, as the code has it. Each of the five roles of the enum has its own
    entry in the table and the lookup returns exactly that array, so that
    [hasPermission] returns the membership test and raises nothing. A role
    string outside the enum has no entry: the lookup yields no array and
    [hasPermission] raises a [TypeError] instead of answering [false]. *)
Theorem RolePermissions_lookup (u : User) (permission : string) :
  (RolePermissions !! UserRole.MANAGEMENT =
     Some ["dashboard:read"; "system-health:read"; "performance:read";
           "alerts:read"; "alerts:write"; "users:read"; "users:write";
           "settings:read"; "settings:write"]
   ∧ RolePermissions !! UserRole.DEVOPS =
     Some ["dashboard:read"; "system-health:read"; "performance:read";
           "alerts:read"; "alerts:write"; "settings:read"]
   ∧ RolePermissions !! UserRole.QA =
     Some ["dashboard:read"; "system-health:read"; "performance:read";
           "settings:read"]
   ∧ RolePermissions !! UserRole.DEV =
     Some ["dashboard:read"; "system-health:read"; "performance:read";
           "settings:read"]
   ∧ RolePermissions !! UserRole.OTHER =
     Some ["dashboard:read"; "system-health:read"])
  ∧ (role u ∈ UserRole.members →
       ∃ permissions,
         RolePermissions !! role u = Some permissions
         ∧ Sidebar.hasPermission (Some u) permission
           = Return (bool_decide (permission ∈ permissions)))
  ∧ (role u ∉ UserRole.members →
       RolePermissions !! role u = None
       ∧ Sidebar.hasPermission (Some u) permission = Throw TypeError).
Proof.
  split; [repeat split; reflexivity |].
  split.
  - intros Hr. destruct (RolePermissions_mapped _ Hr) as [ps Hps].
    exists ps. split; [exact Hps |].
    unfold Sidebar.hasPermission. rewrite Hps. reflexivity.
  - intros Hr. pose proof (RolePermissions_unmapped _ Hr) as Hnone.
    split; [exact Hnone |].
    unfold Sidebar.hasPermission. rewrite Hnone. reflexivity.
Qed.

(** C2, witness: a devops user may write alerts; the lookup of a role
    outside the enum raises. *)
Lemma RolePermissions_lookup_witness :
  Sidebar.hasPermission (Some Sample.operator) "alerts:write" = Return true
  ∧ Sidebar.hasPermission (Some Sample.stranger) "alerts:write"
    = Throw TypeError.
Proof.
  split.
  - destruct (RolePermissions_lookup Sample.operator "alerts:write")
      as (_ & Hin & _).
    destruct Hin as (ps & Hps & Hhas).
    + apply (bool_decide_unpack _). vm_compute. exact I.
    + rewrite Hhas. vm_compute in Hps. injection Hps as <-. reflexivity.
  - destruct (RolePermissions_lookup Sample.stranger "alerts:write")
      as (_ & _ & Hout).
    apply Hout. apply (bool_decide_eq_false_1 _). vm_compute. reflexivity.
Defined.

(** C2, counterexample: for a user whose role string is ["admin"] the
    table has no entry and [hasPermission] raises; it does not answer
    [false]. *)
Lemma hasPermission_unmapped_role_throws :
  RolePermissions !! role Sample.stranger = None
  ∧ Sidebar.hasPermission (Some Sample.stranger) "dashboard:read"
    = Throw TypeError
  ∧ Sidebar.hasPermission (Some Sample.stranger) "dashboard:read"
    ≠ Return false.
Proof. repeat split. discriminate. Qed.

(** ** The route guard *)

Section RouteGuard.

Context {C : Type}.
Variable children : C.

Import Guard.

(** C1, as the code has it. Once the session is restored, an
    authenticated session with a user is shown the guarded content by a
    rule without [allowedRoles], whatever the user's role. A rule whose
    [allowedRoles] is the empty array is a rule that is specified and
    has no member: it sends every role to [/dashboard]. *)
Theorem ProtectedRoute_unrestricted (auth : AuthState) (u : User) :
  isLoading auth = false →
  isAuthenticated auth = true →
  user auth = Some u →
  ProtectedRoute children None auth = Fragment children
  ∧ ProtectedRoute children (Some []) auth = Navigate "/dashboard" true.
Proof.
  intros Hload Hauth Huser. unfold ProtectedRoute.
  rewrite Hload, Hauth, Huser. split; reflexivity.
Qed.

(** C7, as the code has it. Once the session is restored: a session
    that is not authenticated is sent to [/login] and is not shown the
    guarded content; an authenticated session whose user's role is not a
    member of a non-empty [allowedRoles] is sent to [/dashboard]. While
    the session is being restored the guard renders nothing. *)
Theorem ProtectedRoute_redirects (allowedRoles : option (list string))
    (auth : AuthState) :
  (isLoading auth = true → ProtectedRoute children allowedRoles auth = Null)
  ∧ (isLoading auth = false →
     isAuthenticated auth = false →
     ProtectedRoute children allowedRoles auth = Navigate "/login" true)
  ∧ (∀ (u : User) (roles : list string),
       isLoading auth = false →
       isAuthenticated auth = true →
       user auth = Some u →
       allowedRoles = Some roles →
       roles ≠ [] →
       role u ∉ roles →
       ProtectedRoute children allowedRoles auth
       = Navigate "/dashboard" true).
Proof.
  unfold ProtectedRoute. repeat split.
  - intros ->. reflexivity.
  - intros -> ->. reflexivity.
  - intros u roles -> -> -> -> _ Hnot. unfold includes.
    rewrite bool_decide_eq_false_2 by exact Hnot. reflexivity.
Qed.

End RouteGuard.

(** C1, witness: a manager on a route without [allowedRoles]. *)
Lemma ProtectedRoute_unrestricted_witness :
  isLoading (Sample.signed_in Sample.manager) = false
  ∧ isAuthenticated (Sample.signed_in Sample.manager) = true
  ∧ user (Sample.signed_in Sample.manager) = Some Sample.manager
  ∧ Guard.ProtectedRoute "Settings" None (Sample.signed_in Sample.manager)
    = Guard.Fragment "Settings"
  ∧ Guard.ProtectedRoute "Settings" (Some [])
      (Sample.signed_in Sample.manager)
    = Guard.Navigate "/dashboard" true.
Proof.
  repeat (split; [reflexivity |]).
  apply (ProtectedRoute_unrestricted "Settings"
           (Sample.signed_in Sample.manager) Sample.manager);
    reflexivity.
Defined.

(** C1, counterexample: an authenticated manager, session restored, on a
    rule whose [allowedRoles] is the empty array, is not shown the content
    but sent to [/dashboard]. *)
Lemma ProtectedRoute_empty_allowedRoles_denies :
  isAuthenticated (Sample.signed_in Sample.manager) = true
  ∧ user (Sample.signed_in Sample.manager) = Some Sample.manager
  ∧ Guard.ProtectedRoute "Users" (Some []) (Sample.signed_in Sample.manager)
    = Guard.Navigate "/dashboard" true
  ∧ Guard.ProtectedRoute "Users" (Some []) (Sample.signed_in Sample.manager)
    ≠ Guard.Fragment "Users".
Proof. repeat split. discriminate. Qed.

(** C7, witness: the rule of the [users] route, restricted to management,
    sends a devops session to [/dashboard]; a signed-out session goes to
    [/login]. *)
Lemma ProtectedRoute_redirects_witness :
  Guard.ProtectedRoute "Users" (Some [UserRole.MANAGEMENT])
    (Sample.signed_in Sample.operator)
  = Guard.Navigate "/dashboard" true
  ∧ Guard.ProtectedRoute "Users" (Some [UserRole.MANAGEMENT])
      Sample.signed_out
    = Guard.Navigate "/login" true.
Proof.
  split.
  - destruct (ProtectedRoute_redirects "Users" (Some [UserRole.MANAGEMENT])
                (Sample.signed_in Sample.operator)) as (_ & _ & Hrole).
    apply (Hrole Sample.operator [UserRole.MANAGEMENT]);
      try reflexivity; [discriminate |].
    apply (bool_decide_eq_false_1 _). vm_compute. reflexivity.
  - destruct (ProtectedRoute_redirects "Users" (Some [UserRole.MANAGEMENT])
                Sample.signed_out) as (_ & Hout & _).
    apply Hout; reflexivity.
Defined.

(** C7, counterexample: while the session is being restored, a session
    that is not authenticated is not sent to [/login]; the guard returns
    [null]. *)
Lemma ProtectedRoute_loading_renders_nothing :
  isAuthenticated Sample.restoring = false
  ∧ Guard.ProtectedRoute "Users" (Some [UserRole.MANAGEMENT]) Sample.restoring
    = Guard.Null
  ∧ Guard.ProtectedRoute "Users" (Some [UserRole.MANAGEMENT]) Sample.restoring
    ≠ Guard.Navigate "/login" true.
Proof. repeat split. discriminate. Qed.

(** ** The session client *)

Section SessionClient.

Variable API_BASE_URL : string.
Variable server : list Sent → Sent → Reply.

Local Abbreviation dispatchRequest := (AuthService.dispatchRequest server).
Local Abbreviation request_interceptor := AuthService.request_interceptor.
Local Abbreviation response_rejected :=
  (AuthService.response_rejected API_BASE_URL server).
Local Abbreviation apiClient := (AuthService.apiClient API_BASE_URL server).
Local Abbreviation login := (AuthService.login API_BASE_URL server).
Local Abbreviation logout := (AuthService.logout API_BASE_URL server).
Local Abbreviation refreshToken := (AuthService.refreshToken API_BASE_URL server).

(** *** The request interceptor touches the [Authorization] header only *)

Lemma request_interceptor_retry c w :
  _retry (request_interceptor c w) = _retry c.
Proof.
  unfold AuthService.request_interceptor.
  destruct (getItem "token" w) as [t |]; [| reflexivity].
  destruct (truthy (Some t)); reflexivity.
Qed.

Lemma request_interceptor_same_request c w :
  url (request_interceptor c w) = url c
  ∧ baseURL (request_interceptor c w) = baseURL c
  ∧ method (request_interceptor c w) = method c
  ∧ data (request_interceptor c w) = data c.
Proof.
  unfold AuthService.request_interceptor.
  destruct (getItem "token" w) as [t |]; [| done].
  destruct (truthy (Some t)); done.
Qed.

(** After [localStorage.setItem('token', t)], a configuration that
    already carries [Bearer t] leaves the interceptor carrying it. *)
Lemma request_interceptor_bearer c w t :
  getItem "token" w = Some t →
  headers c !! "Authorization" = Some ("Bearer " +:+ t) →
  headers (request_interceptor c w) !! "Authorization"
  = Some ("Bearer " +:+ t).
Proof.
  intros Ht Hc. unfold AuthService.request_interceptor. rewrite Ht.
  destruct (truthy (Some t)); [| exact Hc].
  simpl. apply lookup_insert_eq.
Qed.

Lemma set_retry_marked c : _retry c = true → set_retry true c = c.
Proof. destruct c; simpl; intros ->; reflexivity. Qed.

(** *** The storage after the elementary steps *)

Lemma getItem_record_sent k s w : getItem k (record_sent s w) = getItem k w.
Proof. reflexivity. Qed.

Lemma getItem_setItem_eq k v w : getItem k (setItem k v w) = Some v.
Proof. unfold getItem, setItem; simpl. apply lookup_insert_eq. Qed.

Lemma getItem_setItem_ne k k' v w :
  k ≠ k' → getItem k' (setItem k v w) = getItem k' w.
Proof. intros Hk. unfold getItem, setItem; simpl. by apply lookup_insert_ne. Qed.

Lemma getItem_removeItem_eq k w : getItem k (removeItem k w) = None.
Proof. unfold getItem, removeItem; simpl. apply lookup_delete_eq. Qed.

Lemma getItem_removeItem_ne k k' w :
  k ≠ k' → getItem k' (removeItem k w) = getItem k' w.
Proof. intros Hk. unfold getItem, removeItem; simpl. by apply lookup_delete_ne. Qed.

(** *** One level of [apiClient] *)

(** The rejection handler lets pass every error but a 401 on a request it
    has not yet marked. *)
Lemma response_rejected_passes again e w :
  AuthService.status_is_401 e && negb (_retry (error_config e)) = false →
  AuthService.response_rejected API_BASE_URL server again e w
  = Some (Rejected (OfAxios e), w).
Proof.
  intros H. unfold AuthService.response_rejected. rewrite H. reflexivity.
Qed.

(** A request that is already marked is sent once and its outcome is the
    outcome of the call. *)
Lemma apiClient_marked n c w :
  _retry c = true →
  apiClient (S n) c w = Some (dispatchRequest ApiClient (request_interceptor c w) w).
Proof.
  intros Hc. simpl. unfold AuthService.dispatchRequest.
  destruct (server (wire w) _) as [st body |]; simpl; [| reflexivity].
  destruct (validateStatus st); [reflexivity |].
  apply response_rejected_passes. simpl.
  rewrite request_interceptor_retry, Hc. apply andb_false_r.
Qed.

(** A reply other than a 401 settles the call at once. *)
Lemma apiClient_not_401 n c w :
  (∀ body, server (wire w) (first_call c w) ≠ Response 401 body) →
  apiClient (S n) c w = Some (dispatchRequest ApiClient (request_interceptor c w) w).
Proof.
  intros Hr. simpl. unfold AuthService.dispatchRequest.
  fold (first_call c w).
  destruct (server (wire w) (first_call c w)) as [st body |] eqn:E; simpl;
    [| reflexivity].
  destruct (validateStatus st); [reflexivity |].
  apply response_rejected_passes. unfold AuthService.status_is_401; simpl.
  destruct (Z.eqb_spec st 401) as [-> |]; [| reflexivity].
  exfalso. exact (Hr body eq_refl).
Qed.

(** A 401 on a request that is not yet marked enters the handler. *)
Lemma apiClient_401 n c w body :
  server (wire w) (first_call c w) = Response 401 body →
  apiClient (S n) c w
  = response_rejected (apiClient n)
      (mkError (request_interceptor c w) (Some (401, body)))
      (record_sent (first_call c w) w).
Proof.
  intros Hr. simpl. unfold AuthService.dispatchRequest.
  fold (first_call c w). rewrite Hr. reflexivity.
Qed.

(** *** The three ways through the handler *)

(** A 401 on an unmarked request: into the body of the [if]. *)
Ltac enter_handler Hr Hc :=
  rewrite (apiClient_401 _ _ _ _ Hr);
  unfold AuthService.response_rejected, AuthService.status_is_401;
  cbn [error_config error_response];
  rewrite Z.eqb_refl, request_interceptor_retry, Hc;
  cbn [negb andb];
  rewrite getItem_record_sent.

(** The refresh call, put on the wire. *)
Ltac send_refresh rt :=
  unfold AuthService.axios_post, AuthService.dispatchRequest;
  fold (refresh_call API_BASE_URL rt);
  cbn [wire record_sent].

(** No usable refresh token: nothing is sent, nothing is written, the
    error of the call is rejected, marked. *)
Lemma apiClient_401_no_refreshToken n c w body :
  server (wire w) (first_call c w) = Response 401 body →
  _retry c = false →
  truthy (getItem "refreshToken" w) = false →
  apiClient (S n) c w
  = Some (Rejected (OfAxios (mkError (set_retry true (request_interceptor c w))
                                     (Some (401, body)))),
          record_sent (first_call c w) w).
Proof.
  intros Hr Hc Ht. enter_handler Hr Hc.
  destruct (getItem "refreshToken" w) as [rt |]; [| reflexivity].
  rewrite Ht. reflexivity.
Qed.

(** The refresh call fails: both tokens are removed, the address is set
    to [/login], and the error of the call is rejected, marked. *)
Lemma apiClient_401_refresh_fails n c w body rt :
  server (wire w) (first_call c w) = Response 401 body →
  _retry c = false →
  getItem "refreshToken" w = Some rt →
  truthy (Some rt) = true →
  succeeds (server (wire w ++ [first_call c w])%list
                   (refresh_call API_BASE_URL rt)) = false →
  apiClient (S n) c w
  = Some (Rejected (OfAxios (mkError (set_retry true (request_interceptor c w))
                                     (Some (401, body)))),
          set_location_href "/login"
            (removeItem "refreshToken"
               (removeItem "token"
                  (record_sent (refresh_call API_BASE_URL rt)
                     (record_sent (first_call c w) w))))).
Proof.
  intros Hr Hc Hrt Ht Hfail. enter_handler Hr Hc. rewrite Hrt, Ht.
  send_refresh rt.
  destruct (server _ (refresh_call API_BASE_URL rt)) as [st b |];
    cbn [succeeds settle] in Hfail |- *; [| reflexivity].
  rewrite Hfail. reflexivity.
Qed.

(** The refresh call succeeds: the new token is stored, and the outcome
    of the call is the outcome of sending the marked request once more. *)
Lemma apiClient_401_refresh_succeeds n c w body rt st body' :
  server (wire w) (first_call c w) = Response 401 body →
  _retry c = false →
  getItem "refreshToken" w = Some rt →
  truthy (Some rt) = true →
  server (wire w ++ [first_call c w])%list (refresh_call API_BASE_URL rt)
  = Response st body' →
  validateStatus st = true →
  let w3 := setItem "token" (data_token body')
              (record_sent (refresh_call API_BASE_URL rt)
                 (record_sent (first_call c w) w)) in
  let c2 := set_header "Authorization" ("Bearer " +:+ data_token body')
              (set_retry true (request_interceptor c w)) in
  apiClient (S (S n)) c w
  = Some (dispatchRequest ApiClient (request_interceptor c2 w3) w3).
Proof.
  intros Hr Hc Hrt Ht Hok Hst w3 c2. enter_handler Hr Hc. rewrite Hrt, Ht.
  send_refresh rt. rewrite Hok. cbn [settle]. rewrite Hst.
  cbn [response_data]. fold w3. fold c2.
  apply apiClient_marked. reflexivity.
Qed.

(** *** Every call through [apiClient] settles, after at most three
    requests *)

Lemma truthy_Some v : truthy v = true → ∃ s, v = Some s.
Proof. destruct v as [s |]; [eauto | discriminate]. Qed.

Lemma succeeds_Response r :
  succeeds r = true → ∃ st body, r = Response st body ∧ validateStatus st = true.
Proof. destruct r as [st body |]; [eauto | discriminate]. Qed.

Lemma apiClient_runs n c w :
  ∃ outcome w' rest,
    apiClient (S (S n)) c w = Some (outcome, w')
    ∧ wire w' = (wire w ++ first_call c w :: rest)%list
    ∧ (sent_by GlobalAxios rest ≤ 1)%nat
    ∧ (sent_by ApiClient rest ≤ 1)%nat.
Proof.
  assert (Hone : ∀ c0 w0,
            wire (AuthService.dispatchRequest server ApiClient
                    (request_interceptor c0 w0) w0).2
            = (wire w0 ++ [first_call c0 w0])%list) by reflexivity.
  destruct (server (wire w) (first_call c w)) as [st body |] eqn:Hr.
  2: { eexists _, _, []. rewrite apiClient_not_401 by (intros b; congruence).
       rewrite (surjective_pairing (dispatchRequest _ _ _)).
       split; [reflexivity |]. split; [apply Hone |]. cbn; lia. }
  destruct (decide (st = 401)) as [-> | Hst].
  2: { eexists _, _, []. rewrite apiClient_not_401 by (intros b; congruence).
       rewrite (surjective_pairing (dispatchRequest _ _ _)).
       split; [reflexivity |]. split; [apply Hone |]. cbn; lia. }
  destruct (_retry c) eqn:Hc.
  { eexists _, _, []. rewrite apiClient_marked by exact Hc.
    rewrite (surjective_pairing (dispatchRequest _ _ _)).
    split; [reflexivity |]. split; [apply Hone |]. cbn; lia. }
  destruct (truthy (getItem "refreshToken" w)) eqn:Ht.
  2: { eexists _, _, [].
       rewrite (apiClient_401_no_refreshToken _ _ _ _ Hr Hc Ht).
       split; [reflexivity |]. split; [reflexivity |]. cbn; lia. }
  destruct (truthy_Some _ Ht) as [rt Hrt]. rewrite Hrt in Ht.
  destruct (succeeds (server (wire w ++ [first_call c w])%list
                             (refresh_call API_BASE_URL rt))) eqn:Hs.
  2: { eexists _, _, [refresh_call API_BASE_URL rt].
       rewrite (apiClient_401_refresh_fails _ _ _ _ _ Hr Hc Hrt Ht Hs).
       split; [reflexivity |]. split; [| vm_compute; lia].
       cbn. rewrite <- app_assoc. reflexivity. }
  destruct (succeeds_Response _ Hs) as (st' & body' & Hok & Hst').
  eexists _, _, [refresh_call API_BASE_URL rt; _].
  rewrite (apiClient_401_refresh_succeeds _ _ _ _ _ _ _ Hr Hc Hrt Ht Hok Hst').
  cbv zeta. rewrite (surjective_pairing (dispatchRequest _ _ _)).
  split; [reflexivity |]. split.
  - cbn. rewrite <- !app_assoc. reflexivity.
  - vm_compute; lia.
Qed.

Lemma apiClient_total fuel c w :
  (2 ≤ fuel)%nat → ∃ outcome w', apiClient fuel c w = Some (outcome, w').
Proof.
  intros Hfuel. destruct fuel as [| [| n]]; [lia | lia |].
  destruct (apiClient_runs n c w) as (outcome & w' & _ & Hrun & _).
  eauto.
Qed.

(** *** The claims on the response interceptor *)

(** C3. A request answered with a 401 is followed by at most one refresh
    call and at most one repetition of the request, whatever the backend
    answers. If the refresh call succeeds, exactly the refresh call and
    one repetition follow; the repetition is the same request, marked,
    carrying [Bearer] and the new token; and the outcome of the call is
    the settled reply to the repetition, so that a second 401 is rejected
    to the caller with nothing more being sent. *)
Theorem apiClient_single_refresh_single_retry
    (fuel : nat) (c : AxiosRequestConfig) (w : World) (body : ResponseData) :
  (2 ≤ fuel)%nat →
  server (wire w) (first_call c w) = Response 401 body →
  ∃ outcome w' rest,
    apiClient fuel c w = Some (outcome, w')
    ∧ wire w' = (wire w ++ first_call c w :: rest)%list
    ∧ (sent_by GlobalAxios rest ≤ 1)%nat
    ∧ (sent_by ApiClient rest ≤ 1)%nat
    ∧ (∀ rt st body',
         _retry c = false →
         getItem "refreshToken" w = Some rt →
         truthy (Some rt) = true →
         server (wire w ++ [first_call c w])%list
                (refresh_call API_BASE_URL rt) = Response st body' →
         validateStatus st = true →
         ∃ again,
           rest = [refresh_call API_BASE_URL rt; mkSent ApiClient again]
           ∧ headers again !! "Authorization"
             = Some ("Bearer " +:+ data_token body')
           ∧ _retry again = true
           ∧ url again = url c
           ∧ baseURL again = baseURL c
           ∧ method again = method c
           ∧ data again = data c
           ∧ outcome
             = settle again
                 (server (wire w ++ [first_call c w;
                                     refresh_call API_BASE_URL rt])%list
                         (mkSent ApiClient again))).
Proof.
  intros Hfuel Hr. destruct fuel as [| [| n]]; [lia | lia |].
  destruct (apiClient_runs n c w)
    as (outcome & w' & rest & Hrun & Hwire & Hrefresh & Hretry).
  exists outcome, w', rest. repeat (split; [assumption |]).
  intros rt st body' Hc Hrt Ht Hok Hst.
  pose proof (apiClient_401_refresh_succeeds n _ _ _ _ _ _
                Hr Hc Hrt Ht Hok Hst) as Hrun'.
  cbv zeta in Hrun'. rewrite Hrun in Hrun'.
  set (w3 := setItem "token" (data_token body')
               (record_sent (refresh_call API_BASE_URL rt)
                  (record_sent (first_call c w) w))) in *.
  set (c2 := set_header "Authorization" ("Bearer " +:+ data_token body')
               (set_retry true (request_interceptor c w))) in *.
  injection Hrun' as Houtcome Hw'.
  exists (request_interceptor c2 w3).
  split.
  { rewrite Hw' in Hwire. cbn in Hwire.
    rewrite <- !app_assoc in Hwire. apply app_inv_head in Hwire.
    cbn in Hwire. injection Hwire as <-. reflexivity. }
  split.
  { apply request_interceptor_bearer.
    - apply getItem_setItem_eq.
    - apply lookup_insert_eq. }
  split; [rewrite request_interceptor_retry; reflexivity |].
  destruct (request_interceptor_same_request c2 w3) as (-> & -> & -> & ->).
  destruct (request_interceptor_same_request c w) as (Hu & Hb & Hm & Hd).
  repeat (split; [assumption |]).
  rewrite Houtcome. cbn. rewrite <- app_assoc. reflexivity.
Qed.

(** C4. A request answered with a 401, whose refresh call then fails,
    ends with both tokens gone from the storage, the address set to
    [/login], and the 401 rejected to the caller. *)
Theorem apiClient_refresh_failure_expires_session
    (fuel : nat) (c : AxiosRequestConfig) (w : World) (body : ResponseData)
    (rt : string) :
  (1 ≤ fuel)%nat →
  _retry c = false →
  server (wire w) (first_call c w) = Response 401 body →
  getItem "refreshToken" w = Some rt →
  truthy (Some rt) = true →
  succeeds (server (wire w ++ [first_call c w])%list
                   (refresh_call API_BASE_URL rt)) = false →
  ∃ e w',
    apiClient fuel c w = Some (Rejected (OfAxios e), w')
    ∧ error_response e = Some (401, body)
    ∧ getItem "token" w' = None
    ∧ getItem "refreshToken" w' = None
    ∧ location_href w' = "/login"
    ∧ session_of w' = mkSession false None None.
Proof.
  intros Hfuel Hc Hr Hrt Ht Hfail. destruct fuel as [| n]; [lia |].
  eexists _, _. split.
  { apply (apiClient_401_refresh_fails _ _ _ _ _ Hr Hc Hrt Ht Hfail). }
  split; [reflexivity |].
  assert (Htok : ∀ w0, getItem "token"
            (set_location_href "/login"
               (removeItem "refreshToken" (removeItem "token" w0))) = None).
  { intros w0. unfold getItem; cbn.
    rewrite lookup_delete_ne by discriminate. apply lookup_delete_eq. }
  assert (Href : ∀ w0, getItem "refreshToken"
            (set_location_href "/login"
               (removeItem "refreshToken" (removeItem "token" w0))) = None).
  { intros w0. unfold getItem; cbn. apply lookup_delete_eq. }
  split; [apply Htok |]. split; [apply Href |]. split; [reflexivity |].
  unfold session_of. rewrite Htok, Href. reflexivity.
Qed.

(** C10. A request answered with a 401 while the storage holds no refresh
    token: no refresh call is sent, the storage and the address are as
    they were, and the 401 is rejected to the caller. *)
Theorem apiClient_401_without_refreshToken
    (fuel : nat) (c : AxiosRequestConfig) (w : World) (body : ResponseData) :
  (1 ≤ fuel)%nat →
  server (wire w) (first_call c w) = Response 401 body →
  getItem "refreshToken" w = None →
  ∃ e w',
    apiClient fuel c w = Some (Rejected (OfAxios e), w')
    ∧ error_response e = Some (401, body)
    ∧ error_config e = set_retry true (request_interceptor c w)
    ∧ wire w' = (wire w ++ [first_call c w])%list
    ∧ sent_by GlobalAxios (wire w') = sent_by GlobalAxios (wire w)
    ∧ localStorage w' = localStorage w
    ∧ location_href w' = location_href w
    ∧ session_of w' = session_of w.
Proof.
  intros Hfuel Hr Hnone. destruct fuel as [| n]; [lia |].
  assert (Hcount : sent_by GlobalAxios (wire w ++ [first_call c w])
                   = sent_by GlobalAxios (wire w)).
  { unfold sent_by. rewrite filter_app, length_app.
    change (filter (λ s, via s = GlobalAxios) [first_call c w]) with (@nil Sent).
    cbn [length]. lia. }
  destruct (_retry c) eqn:Hc.
  - rewrite apiClient_marked by exact Hc.
    unfold AuthService.dispatchRequest. fold (first_call c w). rewrite Hr.
    eexists _, _. split; [reflexivity |]. split; [reflexivity |].
    split.
    { cbn. symmetry. apply set_retry_marked.
      rewrite request_interceptor_retry. exact Hc. }
    repeat (split; [first [exact Hcount | reflexivity] |]). reflexivity.
  - rewrite (apiClient_401_no_refreshToken _ _ _ _ Hr Hc)
      by (rewrite Hnone; reflexivity).
    eexists _, _. split; [reflexivity |].
    repeat (split; [first [exact Hcount | reflexivity] |]). reflexivity.
Qed.

(** *** The claims on [authService] *)

(** C5. Whatever the backend does with the invalidation call and with
    anything the interceptor sends on its behalf, [logout] settles, and
    when it does neither token is in the storage and the session is
    unauthenticated. *)
Theorem logout_always_clears (fuel : nat) (w : World) :
  (2 ≤ fuel)%nat →
  ∃ outcome w',
    logout fuel w = Some (outcome, w')
    ∧ getItem "token" w' = None
    ∧ getItem "refreshToken" w' = None
    ∧ session_of w' = mkSession false None None.
Proof.
  intros Hfuel. unfold AuthService.logout, AuthService.apiClient_post.
  destruct (apiClient_total fuel
              (AuthService.post_config API_BASE_URL "/auth/logout" NoBody)
              w Hfuel) as (outcome & w1 & ->).
  assert (Htok : getItem "token"
                   (removeItem "refreshToken" (removeItem "token" w1)) = None).
  { rewrite getItem_removeItem_ne by discriminate.
    apply getItem_removeItem_eq. }
  assert (Href : getItem "refreshToken"
                   (removeItem "refreshToken" (removeItem "token" w1)) = None)
    by apply getItem_removeItem_eq.
  assert (Hses : session_of (removeItem "refreshToken" (removeItem "token" w1))
                 = mkSession false None None).
  { unfold session_of. rewrite Htok, Href. reflexivity. }
  destruct outcome as [response | r]; eexists _, _; eauto.
Qed.

(** C6, as the code has it. When the login call is answered with a 2xx
    status, both tokens of the body are stored, [login] is fulfilled with
    the user and the tokens of the body, and the session is
    authenticated. When it is answered with another status, [login] is
    rejected with that response and the storage is as it was, provided
    the status is not 401 or the storage holds no usable refresh token.
    When it is answered with a 401 and the storage holds a usable refresh
    token, the interceptor takes its refresh path for the login call. If
    the refresh fails, [login] is rejected with the 401, both tokens are
    removed and the address is [/login]. If the refresh succeeds, the new
    access token is stored and the login call is sent once more, marked
    and carrying that token: a 2xx reply to it fulfils [login] and stores
    the tokens of that reply; any other reply, or none, rejects [login]
    and leaves the new access token in the storage, beside the refresh
    token that was there. *)
Theorem login_stores_tokens_or_rejects
    (fuel : nat) (credentials : LoginCredentials) (w : World)
    (st : Z) (body : ResponseData) :
  (1 ≤ fuel)%nat →
  server (wire w)
         (first_call (AuthService.post_config API_BASE_URL "/auth/login"
                        (CredentialsBody credentials)) w)
  = Response st body →
  (validateStatus st = true →
   ∃ w',
     login fuel credentials w
     = Some (Fulfilled (mkLoginResponse (data_user body) (data_token body)
                                        (data_refreshToken body)), w')
     ∧ getItem "token" w' = Some (data_token body)
     ∧ getItem "refreshToken" w' = Some (data_refreshToken body)
     ∧ session_of w'
       = mkSession true (Some (data_token body))
                   (Some (data_refreshToken body)))
  ∧ (validateStatus st = false →
     st ≠ 401 ∨ truthy (getItem "refreshToken" w) = false →
     ∃ e w',
       login fuel credentials w = Some (Rejected (OfAxios e), w')
       ∧ error_response e = Some (st, body)
       ∧ localStorage w' = localStorage w
       ∧ location_href w' = location_href w
       ∧ session_of w' = session_of w)
  ∧ (∀ rt,
       st = 401 →
       getItem "refreshToken" w = Some rt →
       truthy (Some rt) = true →
       succeeds
         (server (wire w
                  ++ [first_call
                        (AuthService.post_config API_BASE_URL "/auth/login"
                           (CredentialsBody credentials)) w])%list
                 (refresh_call API_BASE_URL rt)) = false →
       ∃ e w',
         login fuel credentials w = Some (Rejected (OfAxios e), w')
         ∧ error_response e = Some (401, body)
         ∧ localStorage w'
           = delete "refreshToken" (delete "token" (localStorage w))
         ∧ getItem "token" w' = None
         ∧ getItem "refreshToken" w' = None
         ∧ location_href w' = "/login"
         ∧ session_of w' = mkSession false None None)
  ∧ (∀ rt st' body',
       st = 401 →
       (2 ≤ fuel)%nat →
       getItem "refreshToken" w = Some rt →
       truthy (Some rt) = true →
       server (wire w
               ++ [first_call
                     (AuthService.post_config API_BASE_URL "/auth/login"
                        (CredentialsBody credentials)) w])%list
              (refresh_call API_BASE_URL rt) = Response st' body' →
       validateStatus st' = true →
       ∃ again,
         headers again !! "Authorization"
         = Some ("Bearer " +:+ data_token body')
         ∧ _retry again = true
         ∧ url again = "/auth/login"
         ∧ method again = POST
         ∧ data again = CredentialsBody credentials
         ∧ (∀ st2 body2,
              server (wire w
                      ++ [first_call
                            (AuthService.post_config API_BASE_URL
                               "/auth/login" (CredentialsBody credentials))
                            w;
                          refresh_call API_BASE_URL rt])%list
                     (mkSent ApiClient again) = Response st2 body2 →
              validateStatus st2 = true →
              ∃ w',
                login fuel credentials w
                = Some (Fulfilled
                          (mkLoginResponse (data_user body2)
                             (data_token body2) (data_refreshToken body2)),
                        w')
                ∧ getItem "token" w' = Some (data_token body2)
                ∧ getItem "refreshToken" w'
                  = Some (data_refreshToken body2)
                ∧ location_href w' = location_href w)
         ∧ (succeeds
              (server (wire w
                       ++ [first_call
                             (AuthService.post_config API_BASE_URL
                                "/auth/login" (CredentialsBody credentials))
                             w;
                           refresh_call API_BASE_URL rt])%list
                      (mkSent ApiClient again)) = false →
            ∃ e w',
              login fuel credentials w = Some (Rejected (OfAxios e), w')
              ∧ error_config e = again
              ∧ localStorage w'
                = <["token" := data_token body']> (localStorage w)
              ∧ getItem "token" w' = Some (data_token body')
              ∧ getItem "refreshToken" w' = Some rt
              ∧ location_href w' = location_href w)).
Proof.
  intros Hfuel Hr. destruct fuel as [| n]; [lia |].
  unfold AuthService.login, AuthService.apiClient_post.
  set (c := AuthService.post_config API_BASE_URL "/auth/login"
              (CredentialsBody credentials)) in *.
  assert (Htok : ∀ w0 a b, getItem "token"
            (setItem "refreshToken" b (setItem "token" a w0)) = Some a).
  { intros. rewrite getItem_setItem_ne by discriminate.
    apply getItem_setItem_eq. }
  split; [| split; [| split]].
  - intros Hst.
    rewrite apiClient_not_401
      by (intros b E; rewrite E in Hr; injection Hr as <- _; discriminate).
    unfold AuthService.dispatchRequest. fold (first_call c w).
    rewrite Hr. cbn [settle]. rewrite Hst. cbn [response_data].
    eexists. split; [reflexivity |].
    split; [apply Htok |]. split; [apply getItem_setItem_eq |].
    unfold session_of. rewrite Htok, getItem_setItem_eq. reflexivity.
  - intros Hst [Hne | Hno].
    + rewrite apiClient_not_401
        by (intros b E; rewrite E in Hr; injection Hr as <- _; congruence).
      unfold AuthService.dispatchRequest. fold (first_call c w).
      rewrite Hr. cbn [settle]. rewrite Hst.
      eexists _, _. repeat (split; [reflexivity |]). reflexivity.
    + destruct (decide (st = 401)) as [-> | Hne].
      * rewrite (apiClient_401_no_refreshToken _ _ _ _ Hr eq_refl Hno).
        eexists _, _. repeat (split; [reflexivity |]). reflexivity.
      * rewrite apiClient_not_401
          by (intros b E; rewrite E in Hr; injection Hr as <- _; congruence).
        unfold AuthService.dispatchRequest. fold (first_call c w).
        rewrite Hr. cbn [settle]. rewrite Hst.
        eexists _, _. repeat (split; [reflexivity |]). reflexivity.
  - intros rt -> Hrt Ht Hfail.
    rewrite (apiClient_401_refresh_fails _ _ _ _ _ Hr eq_refl Hrt Ht Hfail).
    eexists _, _. split; [reflexivity |]. split; [reflexivity |].
    split; [reflexivity |].
    assert (Hnotok : ∀ w0, getItem "token"
              (set_location_href "/login"
                 (removeItem "refreshToken" (removeItem "token" w0))) = None).
    { intros w0. unfold getItem; cbn.
      rewrite lookup_delete_ne by discriminate. apply lookup_delete_eq. }
    assert (Hnoref : ∀ w0, getItem "refreshToken"
              (set_location_href "/login"
                 (removeItem "refreshToken" (removeItem "token" w0))) = None).
    { intros w0. unfold getItem; cbn. apply lookup_delete_eq. }
    split; [apply Hnotok |]. split; [apply Hnoref |].
    split; [reflexivity |].
    unfold session_of. rewrite Hnotok, Hnoref. reflexivity.
  - intros rt st' body' -> Hfuel2 Hrt Ht Hok Hst'.
    destruct n as [| n]; [lia |].
    rewrite (apiClient_401_refresh_succeeds _ _ _ _ _ _ _
               Hr eq_refl Hrt Ht Hok Hst').
    cbv zeta.
    set (w3 := setItem "token" (data_token body')
                 (record_sent (refresh_call API_BASE_URL rt)
                    (record_sent (first_call c w) w))).
    set (c2 := set_header "Authorization" ("Bearer " +:+ data_token body')
                 (set_retry true (request_interceptor c w))).
    assert (Hwire : wire w3
                    = (wire w ++ [first_call c w;
                                  refresh_call API_BASE_URL rt])%list).
    { cbn. rewrite <- app_assoc. reflexivity. }
    assert (Hls : localStorage w3
                  = <["token" := data_token body']> (localStorage w))
      by reflexivity.
    assert (Href : getItem "refreshToken" w3 = Some rt).
    { unfold w3. rewrite getItem_setItem_ne by discriminate. exact Hrt. }
    exists (request_interceptor c2 w3).
    split.
    { apply request_interceptor_bearer.
      - apply getItem_setItem_eq.
      - apply lookup_insert_eq. }
    split; [rewrite request_interceptor_retry; reflexivity |].
    destruct (request_interceptor_same_request c2 w3) as (Hu2 & _ & Hm2 & Hd2).
    destruct (request_interceptor_same_request c w) as (Hu & _ & Hm & Hd).
    split; [rewrite Hu2; exact Hu |].
    split; [rewrite Hm2; exact Hm |].
    split; [rewrite Hd2; exact Hd |].
    unfold AuthService.dispatchRequest. rewrite Hwire.
    split.
    + intros st2 body2 Hreply Hst2. rewrite Hreply.
      cbn [settle]. rewrite Hst2. cbn [response_data].
      eexists. split; [reflexivity |].
      split; [apply Htok |]. split; [apply getItem_setItem_eq |].
      reflexivity.
    + intros Hfail.
      destruct (server _ (mkSent ApiClient (request_interceptor c2 w3)))
        as [st2 body2 |]; cbn [succeeds settle] in Hfail |- *.
      * rewrite Hfail. eexists _, _. split; [reflexivity |].
        split; [reflexivity |]. split; [exact Hls |].
        split; [apply getItem_setItem_eq |]. split; [exact Href |].
        reflexivity.
      * eexists _, _. split; [reflexivity |].
        split; [reflexivity |]. split; [exact Hls |].
        split; [apply getItem_setItem_eq |]. split; [exact Href |].
        reflexivity.
Qed.

(** C8. Every successful [refreshToken] call was answered with a 2xx
    status; it stores the access token of the body, changes nothing else
    in the storage, and in particular leaves the refresh token as it
    was. *)
Theorem refreshToken_does_not_rotate
    (w w' : World) (result : LoginResponse) :
  refreshToken w = (Fulfilled result, w') →
  localStorage w' = <["token" := lr_token result]> (localStorage w)
  ∧ getItem "token" w' = Some (lr_token result)
  ∧ getItem "refreshToken" w' = getItem "refreshToken" w
  ∧ getItem "refreshToken" w' = Some (lr_refreshToken result)
  ∧ ∃ st body,
      server (wire w) (refresh_call API_BASE_URL (lr_refreshToken result))
      = Response st body
      ∧ validateStatus st = true
      ∧ lr_token result = data_token body.
Proof.
  unfold AuthService.refreshToken.
  destruct (getItem "refreshToken" w) as [rt |] eqn:Hrt; [| discriminate].
  destruct (truthy (Some rt)); [| discriminate].
  unfold AuthService.axios_post, AuthService.dispatchRequest.
  fold (refresh_call API_BASE_URL rt).
  destruct (server (wire w) (refresh_call API_BASE_URL rt))
    as [st body |] eqn:Hr; cbn [settle]; [| discriminate].
  destruct (validateStatus st) eqn:Hst; [| discriminate].
  cbn [response_data]. intros [= <- <-]. cbn [lr_token lr_refreshToken].
  split; [reflexivity |]. split; [apply getItem_setItem_eq |].
  assert (Hkeep : getItem "refreshToken"
            (setItem "token" (data_token body)
               (record_sent (refresh_call API_BASE_URL rt) w)) = Some rt).
  { rewrite getItem_setItem_ne by discriminate. exact Hrt. }
  split; [exact Hkeep |]. split; [exact Hkeep |]. eauto.
Qed.

End SessionClient.

(** ** The claims at sample runs *)

(** C3, witness: an expired access token; the refresh succeeds and the
    repeated request is answered with a 401 again. Three requests are
    sent and the call is rejected. *)
Lemma apiClient_single_refresh_single_retry_witness :
  (2 ≤ 2)%nat
  ∧ Sample.expired_then_refreshed (wire Sample.holding_tokens)
      (first_call Sample.get_metrics Sample.holding_tokens)
    = Response 401 Sample.no_data
  ∧ ∃ outcome w' rest again,
      AuthService.apiClient Sample.base Sample.expired_then_refreshed 2
        Sample.get_metrics Sample.holding_tokens = Some (outcome, w')
      ∧ (sent_by GlobalAxios rest ≤ 1)%nat
      ∧ (sent_by ApiClient rest ≤ 1)%nat
      ∧ rest = [refresh_call Sample.base "r0"; mkSent ApiClient again]
      ∧ headers again !! "Authorization" = Some "Bearer fresh"
      ∧ outcome = Rejected (OfAxios (mkError again (Some (401, Sample.no_data)))).
Proof.
  split; [lia |]. split; [reflexivity |].
  destruct (apiClient_single_refresh_single_retry Sample.base
              Sample.expired_then_refreshed 2 Sample.get_metrics
              Sample.holding_tokens Sample.no_data)
    as (outcome & w' & rest & Hrun & _ & Hrefresh & Hretry & Hok);
    [lia | reflexivity |].
  destruct (Hok "r0" 200 Sample.fresh_token)
    as (again & Hrest & Hbearer & _ & _ & _ & _ & _ & Houtcome);
    try reflexivity.
  exists outcome, w', rest, again.
  repeat (split; [assumption |]). exact Houtcome.
Defined.

(** C4, witness: both tokens have expired. *)
Lemma apiClient_refresh_failure_expires_session_witness :
  ∃ e w',
    AuthService.apiClient Sample.base Sample.expired_for_good 1
      Sample.get_metrics Sample.holding_tokens
    = Some (Rejected (OfAxios e), w')
    ∧ error_response e = Some (401, Sample.no_data)
    ∧ getItem "token" w' = None
    ∧ getItem "refreshToken" w' = None
    ∧ location_href w' = "/login"
    ∧ session_of w' = mkSession false None None.
Proof.
  apply (apiClient_refresh_failure_expires_session Sample.base
           Sample.expired_for_good 1 Sample.get_metrics
           Sample.holding_tokens Sample.no_data "r0");
    [lia | reflexivity ..].
Defined.

(** C10, witness: a 401 in a browser whose storage is empty. *)
Lemma apiClient_401_without_refreshToken_witness :
  ∃ e w',
    AuthService.apiClient Sample.base Sample.refusing 1
      Sample.get_metrics Sample.blank
    = Some (Rejected (OfAxios e), w')
    ∧ error_response e = Some (401, Sample.no_data)
    ∧ wire w' = [first_call Sample.get_metrics Sample.blank]
    ∧ localStorage w' = localStorage Sample.blank
    ∧ location_href w' = location_href Sample.blank.
Proof.
  destruct (apiClient_401_without_refreshToken Sample.base Sample.refusing 1
              Sample.get_metrics Sample.blank Sample.no_data)
    as (e & w' & Hrun & Hresp & _ & Hwire & _ & Hls & Hhref & _);
    [lia | reflexivity | reflexivity |].
  exists e, w'. repeat (split; [assumption |]). exact Hhref.
Defined.

(** C5, witness: [logout] while the backend cannot be reached is
    rejected, and the storage is empty of tokens all the same. *)
Lemma logout_always_clears_witness :
  (2 ≤ 2)%nat
  ∧ ∃ outcome w',
      AuthService.logout Sample.base Sample.unreachable 2
        Sample.holding_tokens = Some (outcome, w')
      ∧ getItem "token" w' = None
      ∧ getItem "refreshToken" w' = None
      ∧ session_of w' = mkSession false None None.
Proof.
  split; [lia |].
  apply (logout_always_clears Sample.base Sample.unreachable 2
           Sample.holding_tokens).
  lia.
Defined.

(** C6, witness: every path of the statement at a sample run. A login
    that is accepted stores both tokens; a login that is refused in a
    browser with an empty storage leaves it empty; a login refused with a
    403 in a browser that holds tokens leaves them; a login answered with
    a 401 in that browser, the refresh failing, loses both tokens; the
    refresh succeeding and the repeated login accepted, [login] is
    fulfilled; the repeated login refused, [login] is rejected and the
    new access token stays. *)
Lemma login_stores_tokens_or_rejects_witness :
  (∃ w',
     AuthService.login Sample.base Sample.accepting 1 Sample.credentials
       Sample.blank
     = Some (Fulfilled (mkLoginResponse (Some Sample.operator) "a1" "r1"), w')
     ∧ getItem "token" w' = Some "a1"
     ∧ getItem "refreshToken" w' = Some "r1"
     ∧ session_of w' = mkSession true (Some "a1") (Some "r1"))
  ∧ (∃ e w',
       AuthService.login Sample.base Sample.refusing 1 Sample.credentials
         Sample.blank
       = Some (Rejected (OfAxios e), w')
       ∧ error_response e = Some (401, Sample.no_data)
       ∧ localStorage w' = localStorage Sample.blank
       ∧ location_href w' = location_href Sample.blank
       ∧ session_of w' = session_of Sample.blank)
  ∧ (∃ e w',
       AuthService.login Sample.base Scenario.forbidden 1 Sample.credentials
         Sample.holding_tokens
       = Some (Rejected (OfAxios e), w')
       ∧ error_response e = Some (403, Sample.no_data)
       ∧ localStorage w' = localStorage Sample.holding_tokens
       ∧ location_href w' = location_href Sample.holding_tokens
       ∧ session_of w' = session_of Sample.holding_tokens)
  ∧ (∃ e w',
       AuthService.login Sample.base Sample.expired_for_good 1
         Sample.credentials Sample.holding_tokens
       = Some (Rejected (OfAxios e), w')
       ∧ error_response e = Some (401, Sample.no_data)
       ∧ getItem "token" w' = None
       ∧ getItem "refreshToken" w' = None
       ∧ location_href w' = "/login")
  ∧ (∃ w',
       AuthService.login Sample.base Scenario.refused_then_accepted 2
         Sample.credentials Sample.holding_tokens
       = Some (Fulfilled (mkLoginResponse (Some Sample.operator) "a1" "r1"),
               w')
       ∧ getItem "token" w' = Some "a1"
       ∧ getItem "refreshToken" w' = Some "r1"
       ∧ location_href w' = "/dashboard")
  ∧ (∃ e w',
       AuthService.login Sample.base Sample.expired_then_refreshed 2
         Sample.credentials Sample.holding_tokens
       = Some (Rejected (OfAxios e), w')
       ∧ getItem "token" w' = Some "fresh"
       ∧ getItem "refreshToken" w' = Some "r0"
       ∧ location_href w' = "/dashboard").
Proof.
  split; [| split; [| split; [| split; [| split]]]].
  - destruct (login_stores_tokens_or_rejects Sample.base Sample.accepting 1
                Sample.credentials Sample.blank 200 Sample.welcome)
      as (Hok & _); [lia | reflexivity |].
    apply Hok. reflexivity.
  - destruct (login_stores_tokens_or_rejects Sample.base Sample.refusing 1
                Sample.credentials Sample.blank 401 Sample.no_data)
      as (_ & Hno & _); [lia | reflexivity |].
    apply Hno; [reflexivity | right; reflexivity].
  - destruct (login_stores_tokens_or_rejects Sample.base Scenario.forbidden 1
                Sample.credentials Sample.holding_tokens 403 Sample.no_data)
      as (_ & Hno & _); [lia | reflexivity |].
    apply Hno; [reflexivity | left; discriminate].
  - destruct (login_stores_tokens_or_rejects Sample.base
                Sample.expired_for_good 1 Sample.credentials
                Sample.holding_tokens 401 Sample.no_data)
      as (_ & _ & Hexpired & _); [lia | reflexivity |].
    destruct (Hexpired "r0")
      as (e & w' & Hrun & Hresp & _ & Htok & Href & Hhref & _);
      [reflexivity .. |].
    exists e, w'. repeat (split; [assumption |]). exact Hhref.
  - destruct (login_stores_tokens_or_rejects Sample.base
                Scenario.refused_then_accepted 2 Sample.credentials
                Sample.holding_tokens 401 Sample.no_data)
      as (_ & _ & _ & Hrefreshed); [lia | reflexivity |].
    destruct (Hrefreshed "r0" 200 Sample.fresh_token)
      as (again & Hbearer & _ & _ & _ & _ & Haccepted & _);
      [reflexivity | lia | reflexivity ..|].
    destruct (Haccepted 200 Sample.welcome)
      as (w' & Hrun & Htok & Href & Hhref); [reflexivity | reflexivity |].
    exists w'. repeat (split; [assumption |]). exact Hhref.
  - destruct (login_stores_tokens_or_rejects Sample.base
                Sample.expired_then_refreshed 2 Sample.credentials
                Sample.holding_tokens 401 Sample.no_data)
      as (_ & _ & _ & Hrefreshed); [lia | reflexivity |].
    destruct (Hrefreshed "r0" 200 Sample.fresh_token)
      as (again & Hbearer & _ & _ & _ & _ & _ & Hrefused);
      [reflexivity | lia | reflexivity ..|].
    destruct Hrefused
      as (e & w' & Hrun & _ & _ & Htok & Href & Hhref); [reflexivity |].
    exists e, w'. repeat (split; [assumption |]). exact Hhref.
Defined.

(** C6, counterexample: a browser that still holds the tokens of an
    earlier login. The login call is answered with a 401, the interceptor
    refreshes the access token and repeats the call, which is answered
    with a 401 again: [login] is rejected, and the storage holds a new
    access token. *)
Lemma login_rejected_yet_token_written :
  Sample.expired_then_refreshed (wire Sample.holding_tokens)
    (first_call (AuthService.post_config Sample.base "/auth/login"
                   (CredentialsBody Sample.credentials))
                Sample.holding_tokens)
  = Response 401 Sample.no_data
  ∧ validateStatus 401 = false
  ∧ ∃ e w',
      AuthService.login Sample.base Sample.expired_then_refreshed 2
        Sample.credentials Sample.holding_tokens
      = Some (Rejected (OfAxios e), w')
      ∧ error_response e = Some (401, Sample.no_data)
      ∧ getItem "token" Sample.holding_tokens = Some "stale"
      ∧ getItem "token" w' = Some "fresh"
      ∧ localStorage w' ≠ localStorage Sample.holding_tokens.
Proof.
  split; [reflexivity |]. split; [reflexivity |].
  eexists _, _. split; [vm_compute; reflexivity |].
  split; [reflexivity |]. split; [reflexivity |]. split; [reflexivity |].
  intros Heq.
  assert (H : getItem "token"
                (mkWorld (localStorage Sample.holding_tokens) "" [])
              = Some "fresh") by (rewrite <- Heq; reflexivity).
  vm_compute in H. discriminate H.
Qed.

(** C8, witness: a refresh that is accepted stores the new access token
    and keeps the refresh token. *)
Lemma refreshToken_does_not_rotate_witness :
  ∃ w',
    AuthService.refreshToken Sample.base Sample.refreshing
      Sample.holding_tokens
    = (Fulfilled (mkLoginResponse None "fresh" "r0"), w')
    ∧ getItem "token" w' = Some "fresh"
    ∧ getItem "refreshToken" w' = getItem "refreshToken" Sample.holding_tokens
    ∧ getItem "refreshToken" w' = Some "r0".
Proof.
  exists (AuthService.refreshToken Sample.base Sample.refreshing
            Sample.holding_tokens).2.
  assert (Hrun : AuthService.refreshToken Sample.base Sample.refreshing
                   Sample.holding_tokens
                 = (Fulfilled (mkLoginResponse None "fresh" "r0"),
                    (AuthService.refreshToken Sample.base Sample.refreshing
                       Sample.holding_tokens).2))
    by (vm_compute; reflexivity).
  split; [exact Hrun |].
  destruct (refreshToken_does_not_rotate Sample.base Sample.refreshing
              _ _ _ Hrun) as (_ & Htok & Hsame & Hrt & _).
  repeat (split; [assumption |]). exact Hrt.
Defined.

(* ===================================================================== *)
(** * Further properties of the session client *)
(* ===================================================================== *)

Section SessionClientEffects.

Variable API_BASE_URL : string.
Variable server : list Sent → Sent → Reply.

Local Abbreviation dispatchRequest := (AuthService.dispatchRequest server).
Local Abbreviation request_interceptor := AuthService.request_interceptor.
Local Abbreviation apiClient := (AuthService.apiClient API_BASE_URL server).
Local Abbreviation login := (AuthService.login API_BASE_URL server).
Local Abbreviation logout := (AuthService.logout API_BASE_URL server).
Local Abbreviation refreshToken :=
  (AuthService.refreshToken API_BASE_URL server).
Local Abbreviation checkAuthStatus :=
  (AuthService.checkAuthStatus API_BASE_URL server).
Local Abbreviation post_config := (AuthService.post_config API_BASE_URL).
Local Abbreviation get_config := (AuthService.get_config API_BASE_URL).

(** What a call through [apiClient] does to the browser, whatever the
    backend answers: nothing; or it replaces the access token, where a
    refresh token is stored; or it removes both tokens and sets the
    address to [/login]. *)
Lemma apiClient_effect n c w :
  ∃ outcome w',
    apiClient (S (S n)) c w = Some (outcome, w')
    ∧ ((localStorage w' = localStorage w
        ∧ location_href w' = location_href w)
       ∨ (∃ rt t,
            getItem "refreshToken" w = Some rt
            ∧ localStorage w' = <["token" := t]> (localStorage w)
            ∧ location_href w' = location_href w)
       ∨ (localStorage w'
          = delete "refreshToken" (delete "token" (localStorage w))
          ∧ location_href w' = "/login")).
Proof.
  destruct (server (wire w) (first_call c w)) as [st body |] eqn:Hr.
  2: { eexists _, _.
       rewrite (apiClient_not_401 API_BASE_URL server)
         by (intros b; congruence).
       rewrite (surjective_pairing (dispatchRequest _ _ _)).
       split; [reflexivity |]. left. split; reflexivity. }
  destruct (decide (st = 401)) as [-> | Hst].
  2: { eexists _, _.
       rewrite (apiClient_not_401 API_BASE_URL server)
         by (intros b; congruence).
       rewrite (surjective_pairing (dispatchRequest _ _ _)).
       split; [reflexivity |]. left. split; reflexivity. }
  destruct (_retry c) eqn:Hc.
  { eexists _, _.
    rewrite (apiClient_marked API_BASE_URL server) by exact Hc.
    rewrite (surjective_pairing (dispatchRequest _ _ _)).
    split; [reflexivity |]. left. split; reflexivity. }
  destruct (truthy (getItem "refreshToken" w)) eqn:Ht.
  2: { eexists _, _.
       rewrite (apiClient_401_no_refreshToken API_BASE_URL server
                  _ _ _ _ Hr Hc Ht).
       split; [reflexivity |]. left. split; reflexivity. }
  destruct (truthy_Some _ Ht) as [rt Hrt]. rewrite Hrt in Ht.
  destruct (succeeds (server (wire w ++ [first_call c w])%list
                             (refresh_call API_BASE_URL rt))) eqn:Hs.
  2: { eexists _, _.
       rewrite (apiClient_401_refresh_fails API_BASE_URL server
                  _ _ _ _ _ Hr Hc Hrt Ht Hs).
       split; [reflexivity |]. right. right. split; reflexivity. }
  destruct (succeeds_Response _ Hs) as (st' & body' & Hok & Hst').
  eexists _, _.
  rewrite (apiClient_401_refresh_succeeds API_BASE_URL server
             _ _ _ _ _ _ _ Hr Hc Hrt Ht Hok Hst').
  cbv zeta. rewrite (surjective_pairing (dispatchRequest _ _ _)).
  split; [reflexivity |]. right. left.
  exists rt, (data_token body'). split; [exact Hrt |]. split; reflexivity.
Qed.

Lemma apiClient_effect_fuel fuel c w :
  (2 ≤ fuel)%nat →
  ∃ outcome w',
    apiClient fuel c w = Some (outcome, w')
    ∧ ((localStorage w' = localStorage w
        ∧ location_href w' = location_href w)
       ∨ (∃ rt t,
            getItem "refreshToken" w = Some rt
            ∧ localStorage w' = <["token" := t]> (localStorage w)
            ∧ location_href w' = location_href w)
       ∨ (localStorage w'
          = delete "refreshToken" (delete "token" (localStorage w))
          ∧ location_href w' = "/login")).
Proof.
  intros Hfuel. destruct fuel as [| [| n]]; [lia | lia |].
  apply apiClient_effect.
Qed.

(** X1. Whatever the backend answers, a call through [apiClient] settles
    and has done one of three things to the browser: nothing; replaced
    the access token while a refresh token was stored, leaving all else;
    or removed both tokens and set the address to [/login]. It never
    writes a refresh token and never navigates anywhere else. *)
Theorem apiClient_leaves_refreshes_or_expires
    (fuel : nat) (c : AxiosRequestConfig) (w : World) :
  (2 ≤ fuel)%nat →
  ∃ outcome w',
    apiClient fuel c w = Some (outcome, w')
    ∧ ((localStorage w' = localStorage w
        ∧ location_href w' = location_href w)
       ∨ (∃ rt t,
            getItem "refreshToken" w = Some rt
            ∧ localStorage w' = <["token" := t]> (localStorage w)
            ∧ location_href w' = location_href w)
       ∨ (localStorage w'
          = delete "refreshToken" (delete "token" (localStorage w))
          ∧ location_href w' = "/login")).
Proof.
  intros Hfuel. destruct fuel as [| [| n]]; [lia | lia |].
  apply apiClient_effect.
Qed.

(** The three effects leave every other key of the storage alone. *)
Lemma effect_other_keys (k : string) (w w' : World) :
  k ≠ "token" → k ≠ "refreshToken" →
  ((localStorage w' = localStorage w
    ∧ location_href w' = location_href w)
   ∨ (∃ rt t,
        getItem "refreshToken" w = Some rt
        ∧ localStorage w' = <["token" := t]> (localStorage w)
        ∧ location_href w' = location_href w)
   ∨ (localStorage w'
      = delete "refreshToken" (delete "token" (localStorage w))
      ∧ location_href w' = "/login")) →
  getItem k w' = getItem k w.
Proof.
  intros Hk1 Hk2 [[Hls _] | [(rt & t & _ & Hls & _) | [Hls _]]];
    unfold getItem; rewrite Hls.
  - reflexivity.
  - rewrite lookup_insert_ne by congruence. reflexivity.
  - rewrite !lookup_delete_ne by congruence. reflexivity.
Qed.

(** The three effects keep the tokens in pairs. *)
Lemma effect_pairs (w w' : World) :
  (is_Some (getItem "token" w) ↔ is_Some (getItem "refreshToken" w)) →
  ((localStorage w' = localStorage w
    ∧ location_href w' = location_href w)
   ∨ (∃ rt t,
        getItem "refreshToken" w = Some rt
        ∧ localStorage w' = <["token" := t]> (localStorage w)
        ∧ location_href w' = location_href w)
   ∨ (localStorage w'
      = delete "refreshToken" (delete "token" (localStorage w))
      ∧ location_href w' = "/login")) →
  is_Some (getItem "token" w') ↔ is_Some (getItem "refreshToken" w').
Proof.
  intros Hpair [[Hls _] | [(rt & t & Hrt & Hls & _) | [Hls _]]];
    unfold getItem in *; rewrite Hls.
  - exact Hpair.
  - rewrite lookup_insert_eq, lookup_insert_ne by discriminate.
    rewrite Hrt. split; eauto.
  - rewrite lookup_delete_ne by discriminate.
    rewrite !lookup_delete_eq. split; intros [? ?]; discriminate.
Qed.

Lemma refreshToken_effect w :
  (localStorage (refreshToken w).2 = localStorage w
   ∧ location_href (refreshToken w).2 = location_href w)
  ∨ (∃ rt t,
       getItem "refreshToken" w = Some rt
       ∧ localStorage (refreshToken w).2 = <["token" := t]> (localStorage w)
       ∧ location_href (refreshToken w).2 = location_href w)
  ∨ (localStorage (refreshToken w).2
     = delete "refreshToken" (delete "token" (localStorage w))
     ∧ location_href (refreshToken w).2 = "/login").
Proof.
  unfold AuthService.refreshToken.
  destruct (getItem "refreshToken" w) as [rt |] eqn:Hrt; [| by left].
  destruct (truthy (Some rt)); [| by left].
  unfold AuthService.axios_post, AuthService.dispatchRequest.
  destruct (server (wire w) _) as [st body |]; cbn [settle]; [| by left].
  destruct (validateStatus st); [| by left].
  right. left. exists rt, (data_token body). done.
Qed.

(** X2. The module writes two keys of the storage, [token] and
    [refreshToken], and no other: whatever the backend answers, every
    other key reads after [apiClient], [login], [logout],
    [checkAuthStatus] and [refreshToken] as it read before. *)
Theorem authService_writes_two_keys
    (fuel : nat) (k : string) (c : AxiosRequestConfig)
    (credentials : LoginCredentials) (w : World) :
  (2 ≤ fuel)%nat →
  k ≠ "token" →
  k ≠ "refreshToken" →
  (∃ outcome w',
     apiClient fuel c w = Some (outcome, w') ∧ getItem k w' = getItem k w)
  ∧ (∃ outcome w',
       login fuel credentials w = Some (outcome, w')
       ∧ getItem k w' = getItem k w)
  ∧ (∃ outcome w',
       logout fuel w = Some (outcome, w') ∧ getItem k w' = getItem k w)
  ∧ (∃ outcome w',
       checkAuthStatus fuel w = Some (outcome, w')
       ∧ getItem k w' = getItem k w)
  ∧ getItem k (refreshToken w).2 = getItem k w.
Proof.
  intros Hfuel Hk1 Hk2.
  assert (Hset : ∀ k' v w0, k' = "token" ∨ k' = "refreshToken" →
                   getItem k (setItem k' v w0) = getItem k w0).
  { intros k' v w0 Hk'. apply getItem_setItem_ne. destruct Hk'; congruence. }
  assert (Hdel : ∀ k' w0, k' = "token" ∨ k' = "refreshToken" →
                   getItem k (removeItem k' w0) = getItem k w0).
  { intros k' w0 Hk'. apply getItem_removeItem_ne. destruct Hk'; congruence. }
  repeat split.
  - destruct (apiClient_effect_fuel fuel c w Hfuel) as (o & w' & Hrun & He).
    exists o, w'. split; [exact Hrun |]. by apply effect_other_keys.
  - unfold AuthService.login, AuthService.apiClient_post.
    destruct (apiClient_effect_fuel fuel
                (post_config "/auth/login" (CredentialsBody credentials))
                w Hfuel) as (o & w1 & -> & He).
    pose proof (effect_other_keys k w w1 Hk1 Hk2 He) as Hk.
    destruct o as [response | r]; eexists _, _; (split; [reflexivity |]).
    + rewrite !Hset by auto. exact Hk.
    + exact Hk.
  - unfold AuthService.logout, AuthService.apiClient_post.
    destruct (apiClient_effect_fuel fuel
                (post_config "/auth/logout" NoBody) w Hfuel)
      as (o & w1 & -> & He).
    pose proof (effect_other_keys k w w1 Hk1 Hk2 He) as Hk.
    destruct o as [response | r]; eexists _, _; (split; [reflexivity |]);
      rewrite !Hdel by auto; exact Hk.
  - unfold AuthService.checkAuthStatus, AuthService.apiClient_get.
    destruct (apiClient_effect_fuel fuel (get_config "/auth/me") w Hfuel)
      as (o & w1 & -> & He).
    pose proof (effect_other_keys k w w1 Hk1 Hk2 He) as Hk.
    destruct o as [response | r]; eexists _, _; (split; [reflexivity |]);
      exact Hk.
  - apply effect_other_keys; [assumption .. |]. apply refreshToken_effect.
Qed.

(** X3. The tokens come in pairs. If the storage holds an access token
    exactly when it holds a refresh token, it still does after
    [apiClient], [login], [logout], [checkAuthStatus] and [refreshToken],
    whatever the backend answers. *)
Theorem authService_keeps_tokens_paired
    (fuel : nat) (c : AxiosRequestConfig) (credentials : LoginCredentials)
    (w : World) :
  (2 ≤ fuel)%nat →
  (is_Some (getItem "token" w) ↔ is_Some (getItem "refreshToken" w)) →
  (∃ outcome w',
     apiClient fuel c w = Some (outcome, w')
     ∧ (is_Some (getItem "token" w') ↔ is_Some (getItem "refreshToken" w')))
  ∧ (∃ outcome w',
       login fuel credentials w = Some (outcome, w')
       ∧ (is_Some (getItem "token" w')
          ↔ is_Some (getItem "refreshToken" w')))
  ∧ (∃ outcome w',
       logout fuel w = Some (outcome, w')
       ∧ (is_Some (getItem "token" w')
          ↔ is_Some (getItem "refreshToken" w')))
  ∧ (∃ outcome w',
       checkAuthStatus fuel w = Some (outcome, w')
       ∧ (is_Some (getItem "token" w')
          ↔ is_Some (getItem "refreshToken" w')))
  ∧ (is_Some (getItem "token" (refreshToken w).2)
     ↔ is_Some (getItem "refreshToken" (refreshToken w).2)).
Proof.
  intros Hfuel Hpair.
  assert (Hboth : ∀ a b w0,
            is_Some (getItem "token"
                       (setItem "refreshToken" b (setItem "token" a w0)))
            ↔ is_Some (getItem "refreshToken"
                         (setItem "refreshToken" b (setItem "token" a w0)))).
  { intros a b w0. rewrite getItem_setItem_eq.
    rewrite getItem_setItem_ne by discriminate.
    rewrite getItem_setItem_eq. split; eauto. }
  assert (Hnone : ∀ w0,
            is_Some (getItem "token"
                       (removeItem "refreshToken" (removeItem "token" w0)))
            ↔ is_Some (getItem "refreshToken"
                         (removeItem "refreshToken" (removeItem "token" w0)))).
  { intros w0. rewrite getItem_removeItem_eq.
    rewrite getItem_removeItem_ne by discriminate.
    rewrite getItem_removeItem_eq. reflexivity. }
  split; [| split; [| split; [| split]]].
  - destruct (apiClient_effect_fuel fuel c w Hfuel) as (o & w' & Hrun & He).
    exists o, w'. split; [exact Hrun |]. by apply (effect_pairs w).
  - unfold AuthService.login, AuthService.apiClient_post.
    destruct (apiClient_effect_fuel fuel
                (post_config "/auth/login" (CredentialsBody credentials))
                w Hfuel) as (o & w1 & -> & He).
    destruct o as [response | r]; eexists _, _; (split; [reflexivity |]).
    + apply Hboth.
    + by apply (effect_pairs w).
  - unfold AuthService.logout, AuthService.apiClient_post.
    destruct (apiClient_effect_fuel fuel
                (post_config "/auth/logout" NoBody) w Hfuel)
      as (o & w1 & -> & He).
    destruct o as [response | r]; eexists _, _; (split; [reflexivity |]);
      apply Hnone.
  - unfold AuthService.checkAuthStatus, AuthService.apiClient_get.
    destruct (apiClient_effect_fuel fuel (get_config "/auth/me") w Hfuel)
      as (o & w1 & -> & He).
    destruct o as [response | r]; eexists _, _; (split; [reflexivity |]);
      by apply (effect_pairs w).
  - apply (effect_pairs w); [exact Hpair |]. apply refreshToken_effect.
Qed.

(** X4. [logout] leaves the storage exactly as it was less the two
    tokens, whatever the backend answers and whatever the interceptor did
    on the way. *)
Theorem logout_removes_exactly_the_tokens (fuel : nat) (w : World) :
  (2 ≤ fuel)%nat →
  ∃ outcome w',
    logout fuel w = Some (outcome, w')
    ∧ localStorage w'
      = delete "refreshToken" (delete "token" (localStorage w)).
Proof.
  intros Hfuel. unfold AuthService.logout, AuthService.apiClient_post.
  destruct (apiClient_effect_fuel fuel
              (post_config "/auth/logout" NoBody) w Hfuel)
    as (o & w1 & -> & He).
  assert (Hls : delete "refreshToken" (delete "token" (localStorage w1))
                = delete "refreshToken" (delete "token" (localStorage w))).
  { destruct He as [[-> _] | [(rt & t & _ & -> & _) | [-> _]]].
    - reflexivity.
    - rewrite delete_insert_eq. reflexivity.
    - apply map_eq. intros k.
      destruct (decide (k = "refreshToken")) as [-> | Hk1];
        [by rewrite !lookup_delete_eq |].
      rewrite !(lookup_delete_ne _ "refreshToken") by done.
      destruct (decide (k = "token")) as [-> | Hk2];
        [by rewrite !lookup_delete_eq |].
      rewrite !(lookup_delete_ne _ "token") by done.
      rewrite !lookup_delete_ne by done. reflexivity. }
  destruct o as [response | r]; eexists _, _; (split; [reflexivity |]);
    exact Hls.
Qed.

(** X5. A reply that is not a 401 (another status, or no reply at all)
    settles the call at once: one request is sent, no refresh is tried,
    the storage and the address stay as they are, and the outcome is the
    settled reply. *)
Theorem apiClient_passes_other_replies
    (fuel : nat) (c : AxiosRequestConfig) (w : World) :
  (1 ≤ fuel)%nat →
  (∀ body, server (wire w) (first_call c w) ≠ Response 401 body) →
  apiClient fuel c w
  = Some (settle (request_interceptor c w)
                 (server (wire w) (first_call c w)),
          record_sent (first_call c w) w).
Proof.
  intros Hfuel Hr. destruct fuel as [| n]; [lia |].
  rewrite (apiClient_not_401 API_BASE_URL server) by exact Hr.
  reflexivity.
Qed.

(** X6. After a 401 and a refresh that succeeded, whatever is answered
    to the repeated request, and so also when it is rejected: the storage
    holds the new access token and the refresh token it held, everything
    else in it is as before, and the address has not changed. *)
Theorem apiClient_repeat_keeps_session
    (fuel : nat) (c : AxiosRequestConfig) (w : World)
    (body : ResponseData) (rt : string) (st : Z) (body' : ResponseData) :
  (2 ≤ fuel)%nat →
  _retry c = false →
  server (wire w) (first_call c w) = Response 401 body →
  getItem "refreshToken" w = Some rt →
  truthy (Some rt) = true →
  server (wire w ++ [first_call c w])%list (refresh_call API_BASE_URL rt)
  = Response st body' →
  validateStatus st = true →
  ∃ outcome w',
    apiClient fuel c w = Some (outcome, w')
    ∧ localStorage w' = <["token" := data_token body']> (localStorage w)
    ∧ getItem "token" w' = Some (data_token body')
    ∧ getItem "refreshToken" w' = Some rt
    ∧ location_href w' = location_href w.
Proof.
  intros Hfuel Hc Hr Hrt Ht Hok Hst. destruct fuel as [| [| n]]; [lia | lia |].
  rewrite (apiClient_401_refresh_succeeds API_BASE_URL server
             _ _ _ _ _ _ _ Hr Hc Hrt Ht Hok Hst).
  cbv zeta. rewrite (surjective_pairing (dispatchRequest _ _ _)).
  eexists _, _. split; [reflexivity |]. split; [reflexivity |].
  unfold getItem in *. cbn.
  rewrite lookup_insert_eq, lookup_insert_ne by discriminate. done.
Qed.

(** X7. [refreshToken] without a usable refresh token in the storage (no
    entry, or the empty string) is rejected with
    [Error('No refresh token available')]; nothing is sent and nothing
    changes. *)
Theorem refreshToken_without_refresh_token (w : World) :
  truthy (getItem "refreshToken" w) = false →
  refreshToken w = (Rejected (OfError "No refresh token available"), w).
Proof.
  intros Ht. unfold AuthService.refreshToken.
  destruct (getItem "refreshToken" w) as [rt |]; [| reflexivity].
  rewrite Ht. reflexivity.
Qed.

(** X8. A [refreshToken] call that the backend rejects, or that gets no
    reply, is rejected with that error and leaves the storage and the
    address as they were: unlike the interceptor, it removes no token. *)
Theorem refreshToken_failure_keeps_tokens (w : World) (rt : string) :
  getItem "refreshToken" w = Some rt →
  truthy (Some rt) = true →
  succeeds (server (wire w) (refresh_call API_BASE_URL rt)) = false →
  ∃ e w',
    refreshToken w = (Rejected (OfAxios e), w')
    ∧ error_response e
      = match server (wire w) (refresh_call API_BASE_URL rt) with
        | Response st body => Some (st, body)
        | NoResponse => None
        end
    ∧ localStorage w' = localStorage w
    ∧ location_href w' = location_href w
    ∧ wire w' = (wire w ++ [refresh_call API_BASE_URL rt])%list.
Proof.
  intros Hrt Ht Hfail. unfold AuthService.refreshToken.
  rewrite Hrt, Ht.
  unfold AuthService.axios_post, AuthService.dispatchRequest.
  fold (refresh_call API_BASE_URL rt).
  destruct (server (wire w) (refresh_call API_BASE_URL rt))
    as [st body |]; cbn [succeeds settle] in Hfail |- *.
  - rewrite Hfail. eexists _, _. repeat (split; [reflexivity |]). reflexivity.
  - eexists _, _. repeat (split; [reflexivity |]). reflexivity.
Qed.

(** X9. [checkAuthStatus] stores nothing. When the reply to [/auth/me]
    is not a 401, the storage is afterwards as it was, also when the body
    carries a token that differs from the stored one; a 2xx reply fulfils
    the call with the user and the token of the body and with the stored
    refresh token, or the empty string where none is stored; any other
    reply rejects it and the tokens stay. *)
Theorem checkAuthStatus_stores_nothing (fuel : nat) (w : World) :
  (1 ≤ fuel)%nat →
  (∀ body, server (wire w) (first_call (get_config "/auth/me") w)
           ≠ Response 401 body) →
  ∃ outcome w',
    checkAuthStatus fuel w = Some (outcome, w')
    ∧ localStorage w' = localStorage w
    ∧ location_href w' = location_href w
    ∧ (∀ st body,
         server (wire w) (first_call (get_config "/auth/me") w)
         = Response st body →
         validateStatus st = true →
         outcome
         = Fulfilled (mkLoginResponse (data_user body) (data_token body)
                        (default "" (getItem "refreshToken" w))))
    ∧ (succeeds (server (wire w) (first_call (get_config "/auth/me") w))
       = false →
       ∃ e, outcome = Rejected (OfAxios e)).
Proof.
  intros Hfuel Hr. destruct fuel as [| n]; [lia |].
  unfold AuthService.checkAuthStatus, AuthService.apiClient_get.
  rewrite (apiClient_not_401 API_BASE_URL server) by exact Hr.
  unfold AuthService.dispatchRequest.
  fold (first_call (get_config "/auth/me") w).
  destruct (server (wire w) (first_call (get_config "/auth/me") w))
    as [st body |] eqn:Hreply; cbn [settle succeeds].
  - destruct (validateStatus st) eqn:Hst.
    + eexists _, _. split; [reflexivity |]. repeat (split; [reflexivity |]).
      split; [| discriminate].
      intros st0 body0 [= <- <-] _. cbn [response_data].
      rewrite getItem_record_sent. do 2 f_equal.
      destruct (getItem "refreshToken" w) as [stored |]; [| reflexivity].
      cbn [truthy default]. destruct (String.eqb_spec stored ""); done.
    + eexists _, _. split; [reflexivity |]. repeat (split; [reflexivity |]).
      split; [| eauto]. intros st0 body0 [= <- <-] ?. congruence.
  - eexists _, _. split; [reflexivity |]. repeat (split; [reflexivity |]).
    split; [discriminate | eauto].
Qed.

(** X10. After a [login] that was fulfilled with a non-empty token,
    every request through [apiClient] leaves the request interceptor with
    [Authorization: Bearer] and that token. After a [login] fulfilled
    with the empty string for a token, the interceptor adds no header. *)
Theorem login_then_requests_carry_bearer
    (fuel : nat) (credentials : LoginCredentials) (w w' : World)
    (result : LoginResponse) (c : AxiosRequestConfig) :
  login fuel credentials w = Some (Fulfilled result, w') →
  (lr_token result ≠ "" →
   headers (request_interceptor c w') !! "Authorization"
   = Some ("Bearer " +:+ lr_token result))
  ∧ (lr_token result = "" → request_interceptor c w' = c).
Proof.
  unfold AuthService.login.
  destruct (AuthService.apiClient_post _ _ _ _ _ _) as [[[response | r] w1] |];
    [| discriminate ..].
  intros [= <- <-]. cbn [lr_token].
  unfold AuthService.request_interceptor.
  rewrite getItem_setItem_ne by discriminate.
  rewrite getItem_setItem_eq. cbn [truthy].
  destruct (String.eqb_spec (data_token (response_data response)) "")
    as [Hempty | Hfull]; cbn [negb].
  - split; [intros Hne; contradiction | reflexivity].
  - split; [| intros He; contradiction].
    intros _. cbn. apply lookup_insert_eq.
Qed.

(** X11. After [logout], whatever the backend answered, the request
    interceptor leaves every configuration as it is: no request carries a
    token from the storage. *)
Theorem logout_then_requests_carry_nothing
    (fuel : nat) (w : World) (c : AxiosRequestConfig) :
  (2 ≤ fuel)%nat →
  ∃ outcome w',
    logout fuel w = Some (outcome, w') ∧ request_interceptor c w' = c.
Proof.
  intros Hfuel. unfold AuthService.logout, AuthService.apiClient_post.
  destruct (apiClient_total API_BASE_URL server fuel
              (post_config "/auth/logout" NoBody) w Hfuel)
    as (o & w1 & ->).
  assert (Hc : request_interceptor c
                 (removeItem "refreshToken" (removeItem "token" w1)) = c).
  { unfold AuthService.request_interceptor.
    rewrite getItem_removeItem_ne by discriminate.
    rewrite getItem_removeItem_eq. reflexivity. }
  destruct o as [response | r]; eexists _, _; (split; [reflexivity |]);
    exact Hc.
Qed.

(** X12. [login] and [checkAuthStatus] compose: after a [login] that was
    fulfilled, a [checkAuthStatus] answered with a 2xx status is
    fulfilled with the user and the token of its own reply and with the
    refresh token that [login] returned, and the storage still holds the
    access token of [login]. *)
Theorem login_then_checkAuthStatus
    (fuel fuel' : nat) (credentials : LoginCredentials) (w w1 : World)
    (result : LoginResponse) (st : Z) (body : ResponseData) :
  login fuel credentials w = Some (Fulfilled result, w1) →
  (1 ≤ fuel')%nat →
  server (wire w1) (first_call (get_config "/auth/me") w1)
  = Response st body →
  validateStatus st = true →
  ∃ w2,
    checkAuthStatus fuel' w1
    = Some (Fulfilled (mkLoginResponse (data_user body) (data_token body)
                         (lr_refreshToken result)), w2)
    ∧ getItem "token" w2 = Some (lr_token result)
    ∧ getItem "refreshToken" w2 = Some (lr_refreshToken result).
Proof.
  intros Hlogin Hfuel Hr Hst.
  assert (Hstored : getItem "token" w1 = Some (lr_token result)
                    ∧ getItem "refreshToken" w1
                      = Some (lr_refreshToken result)).
  { revert Hlogin. unfold AuthService.login.
    destruct (AuthService.apiClient_post _ _ _ _ _ _)
      as [[[response | r] w0] |]; [| discriminate ..].
    intros [= <- <-]. cbn [lr_token lr_refreshToken]. split.
    - rewrite getItem_setItem_ne by discriminate. apply getItem_setItem_eq.
    - apply getItem_setItem_eq. }
  destruct Hstored as [Htok Href].
  destruct fuel' as [| n]; [lia |].
  unfold AuthService.checkAuthStatus, AuthService.apiClient_get.
  rewrite (apiClient_not_401 API_BASE_URL server)
    by (intros b E; rewrite E in Hr; injection Hr as <- _; discriminate).
  unfold AuthService.dispatchRequest.
  fold (first_call (get_config "/auth/me") w1).
  rewrite Hr. cbn [settle]. rewrite Hst. cbn [response_data].
  rewrite getItem_record_sent, Href.
  exists (record_sent (first_call (get_config "/auth/me") w1) w1).
  split; [| split; [exact Htok | exact Href]].
  do 3 f_equal. cbn [truthy].
  destruct (String.eqb_spec (lr_refreshToken result) ""); cbn [negb];
    congruence.
Qed.

End SessionClientEffects.

(* ===================================================================== *)
(** * Further properties of the guard, the menu and the route table *)
(* ===================================================================== *)

(** X13. The guard renders the content exactly when the session is
    restored, authenticated, has a user, and the rule either has no
    [allowedRoles] or lists the user's role; what it renders then is the
    content it was given. *)
Theorem ProtectedRoute_renders_iff {C : Type} (children content : C)
    (allowedRoles : option (list string)) (auth : AuthState) :
  Guard.ProtectedRoute children allowedRoles auth = Guard.Fragment content
  ↔ content = children
    ∧ isLoading auth = false
    ∧ isAuthenticated auth = true
    ∧ ∃ u, user auth = Some u
           ∧ ∀ roles, allowedRoles = Some roles → role u ∈ roles.
Proof.
  unfold Guard.ProtectedRoute, Guard.includes. split.
  - destruct (isLoading auth); [discriminate |].
    destruct (isAuthenticated auth); [| discriminate].
    destruct (user auth) as [u |]; [| discriminate].
    destruct allowedRoles as [roles |].
    + destruct (bool_decide_reflect (role u ∈ roles)) as [Hin | Hout];
        cbn [negb]; [| discriminate].
      intros [= <-]. repeat (split; [reflexivity |]).
      exists u. split; [reflexivity |]. by intros ? [= <-].
    + intros [= <-]. repeat (split; [reflexivity |]).
      exists u. split; [reflexivity |]. discriminate.
  - intros (-> & -> & -> & u & -> & Hroles).
    destruct allowedRoles as [roles |]; [| reflexivity].
    rewrite bool_decide_eq_true_2 by (by apply Hroles). reflexivity.
Qed.

Lemma RolePermissions_entries :
  RolePermissions !! UserRole.MANAGEMENT =
    Some ["dashboard:read"; "system-health:read"; "performance:read";
          "alerts:read"; "alerts:write"; "users:read"; "users:write";
          "settings:read"; "settings:write"]
  ∧ RolePermissions !! UserRole.DEVOPS =
    Some ["dashboard:read"; "system-health:read"; "performance:read";
          "alerts:read"; "alerts:write"; "settings:read"]
  ∧ RolePermissions !! UserRole.QA =
    Some ["dashboard:read"; "system-health:read"; "performance:read";
          "settings:read"]
  ∧ RolePermissions !! UserRole.DEV =
    Some ["dashboard:read"; "system-health:read"; "performance:read";
          "settings:read"]
  ∧ RolePermissions !! UserRole.OTHER =
    Some ["dashboard:read"; "system-health:read"].
Proof. repeat split; reflexivity. Qed.

(** [hasPermission] for a user whose role is a member of the enum. *)
Ltac role_cases Hrole :=
  unfold UserRole.members in Hrole;
  repeat (apply elem_of_cons in Hrole; destruct Hrole as [Hrole | Hrole]);
  [ .. | by apply elem_of_nil in Hrole ].

(** X14. The roles form a ladder: every permission of [other] is one of
    [dev]; [dev] and [qa] have the same permissions; every permission of
    [qa] is one of [devops]; and every permission of [devops] is one of
    [management]. *)
Theorem RolePermissions_ladder (lower higher : User) (permission : string) :
  (role lower, role higher)
    ∈ [(UserRole.OTHER, UserRole.DEV); (UserRole.DEV, UserRole.QA);
       (UserRole.QA, UserRole.DEV); (UserRole.QA, UserRole.DEVOPS);
       (UserRole.DEVOPS, UserRole.MANAGEMENT)] →
  Sidebar.hasPermission (Some lower) permission = Return true →
  Sidebar.hasPermission (Some higher) permission = Return true.
Proof.
  destruct RolePermissions_entries as (Hm & Hv & Hq & Hd & Ho).
  intros Hpair.
  repeat (apply elem_of_cons in Hpair; destruct Hpair as [Hpair | Hpair]);
    [ .. | by apply elem_of_nil in Hpair ];
    injection Hpair as Hl Hh;
    unfold Sidebar.hasPermission, Sidebar.includes; rewrite Hl, Hh;
    rewrite ?Hm, ?Hv, ?Hq, ?Hd, ?Ho;
    intros [= Hin]; f_equal;
    apply bool_decide_eq_true in Hin; apply bool_decide_eq_true;
    rewrite !elem_of_cons, elem_of_nil in Hin;
    rewrite !elem_of_cons, elem_of_nil; tauto.
Qed.

(** [Array.prototype.map], element by element. *)
Lemma Array_map_Return {A B : Type} (f : A → Completion B) l ys y :
  SidebarView.Array_map f l = Return ys →
  y ∈ ys →
  ∃ x, x ∈ l ∧ f x = Return y.
Proof.
  revert ys. induction l as [| x rest IH]; intros ys; cbn.
  - intros [= <-] Hy. by apply elem_of_nil in Hy.
  - destruct (f x) as [y0 |] eqn:Hx; [| discriminate].
    destruct (SidebarView.Array_map f rest) as [ys0 |]; [| discriminate].
    intros [= <-] Hy. apply elem_of_cons in Hy as [-> | Hy].
    + exists x. split; [left | exact Hx].
    + destruct (IH ys0 eq_refl Hy) as (x' & Hx' & Hfx').
      exists x'. split; [by right | exact Hfx'].
Qed.

Lemma Array_map_total {A B : Type} (f : A → Completion B) l :
  (∀ x, x ∈ l → ∃ y, f x = Return y) →
  ∃ ys, SidebarView.Array_map f l = Return ys.
Proof.
  induction l as [| x rest IH]; intros Hf; cbn; [eauto |].
  destruct (Hf x) as [y ->]; [left |].
  destruct IH as [ys ->]; [| eauto].
  intros x' Hx'. apply Hf. by right.
Qed.

(** Every entry of the menu comes from an item the user has the
    permission of. *)
Lemma menu_entry user pathname entries e :
  SidebarView.menu user pathname = Return entries →
  Some e ∈ entries →
  ∃ item,
    item ∈ SidebarView.menuItems
    ∧ Sidebar.hasPermission user (SidebarView.permission item) = Return true
    ∧ e = SidebarView.mkListItem (SidebarView.text item)
            (String.eqb pathname (SidebarView.path item))
            (SidebarView.path item).
Proof.
  intros Hmenu He.
  destruct (Array_map_Return _ _ _ _ Hmenu He) as (item & Hitem & Hf).
  exists item. split; [exact Hitem |].
  destruct (Sidebar.hasPermission user (SidebarView.permission item))
    as [[|] | err]; [| discriminate ..].
  injection Hf as <-. done.
Qed.

(** X15. Rendering the menu raises exactly when there is a user whose
    role is outside the enum; without a user, and for every role of the
    enum, it returns. *)
Theorem menu_throws_iff (user : option User) (pathname : string) :
  SidebarView.menu user pathname = Throw TypeError
  ↔ ∃ u, user = Some u ∧ role u ∉ UserRole.members.
Proof.
  split.
  - intros Hthrow. destruct user as [u |]; [| discriminate].
    exists u. split; [reflexivity |]. intros Hin.
    destruct (RolePermissions_mapped _ Hin) as [ps Hps].
    destruct (Array_map_total
                (λ item,
                   match Sidebar.hasPermission (Some u)
                           (SidebarView.permission item) with
                   | Throw e => Throw e
                   | Return false => Return None
                   | Return true =>
                       Return (Some (SidebarView.mkListItem
                                       (SidebarView.text item)
                                       (String.eqb pathname
                                          (SidebarView.path item))
                                       (SidebarView.path item)))
                   end)
                SidebarView.menuItems) as [ys Hys].
    { intros item _. unfold Sidebar.hasPermission. rewrite Hps.
      destruct (Sidebar.includes ps (SidebarView.permission item)); eauto. }
    unfold SidebarView.menu in Hthrow. congruence.
  - intros (u & -> & Hout).
    pose proof (RolePermissions_unmapped _ Hout) as Hnone.
    unfold SidebarView.menu, SidebarView.menuItems. cbn [SidebarView.Array_map].
    unfold Sidebar.hasPermission. rewrite Hnone. reflexivity.
Qed.

(** The items of the menu, one by one. *)
Lemma menuItems_cases (item : SidebarView.MenuItem) :
  item ∈ SidebarView.menuItems →
  item = SidebarView.mkMenuItem "Dashboard" "/dashboard" "dashboard:read"
  ∨ item = SidebarView.mkMenuItem "System Health" "/system-health"
             "system-health:read"
  ∨ item = SidebarView.mkMenuItem "Performance" "/performance"
             "performance:read"
  ∨ item = SidebarView.mkMenuItem "Alerts" "/alerts" "alerts:read"
  ∨ item = SidebarView.mkMenuItem "Users" "/users" "users:read"
  ∨ item = SidebarView.mkMenuItem "Settings" "/settings" "settings:read".
Proof.
  unfold SidebarView.menuItems. rewrite !elem_of_cons, elem_of_nil. tauto.
Qed.

(** A permission check that returns was made for a role of the enum. *)
Lemma hasPermission_Return_role (u : User) (p : string) (b : bool) :
  Sidebar.hasPermission (Some u) p = Return b → role u ∈ UserRole.members.
Proof.
  intros Hp. destruct (decide (role u ∈ UserRole.members)) as [Hin | Hout];
    [exact Hin |].
  unfold Sidebar.hasPermission in Hp.
  rewrite (RolePermissions_unmapped _ Hout) in Hp. discriminate.
Qed.

(** The store of a restored, authenticated session, written out. *)
Lemma signed_in_state (auth : AuthState) (u : User) :
  isLoading auth = false → isAuthenticated auth = true →
  user auth = Some u →
  auth = mkAuthState (Some u) true false (error auth) (token auth).
Proof. destruct auth; cbn; intros -> -> ->; reflexivity. Qed.

Lemma user_with_role (u : User) (r : string) :
  role u = r →
  u = mkUser (id u) (username u) (email u) (firstName u) (lastName u) r
        (isActive u) (lastLogin u) (createdAt u) (updatedAt u).
Proof. destruct u; cbn; intros ->; reflexivity. Qed.

(** X16. The menu has no dead entry: for a restored, authenticated
    session, every entry the menu shows to the user navigates to a route
    on which [App] shows that user a page of the dashboard. *)
Theorem menu_entries_lead_to_pages
    (auth : AuthState) (u : User) (pathname : string)
    (entries : list (option SidebarView.ListItem))
    (e : SidebarView.ListItem) :
  isLoading auth = false →
  isAuthenticated auth = true →
  user auth = Some u →
  SidebarView.menu (Some u) pathname = Return entries →
  Some e ∈ entries →
  ∃ m page,
    App.route_of (SidebarView.target e) = Some m
    ∧ App.screen (App.App m auth) = App.Shows page
    ∧ page ≠ App.Login
    ∧ page ≠ App.NotFound.
Proof.
  intros Hload Hauth Huser Hmenu He.
  destruct (menu_entry _ _ _ _ Hmenu He) as (item & Hitem & Hperm & ->).
  pose proof (hasPermission_Return_role _ _ _ Hperm) as Hrole.
  rewrite (signed_in_state auth u Hload Hauth Huser).
  generalize (error auth) (token auth). intros err tok.
  apply menuItems_cases in Hitem.
  role_cases Hrole;
    rewrite (user_with_role u _ Hrole) in Hperm |- *;
    destruct Hitem as [-> | [-> | [-> | [-> | [-> | ->]]]]];
    first [ discriminate Hperm
          | eexists _, _; split; [reflexivity |];
            split; [vm_compute; reflexivity |]; split; discriminate ].
Qed.

(** X17. The one route that is open to a user and missing from that
    user's menu: for a restored, authenticated session with a role of the
    enum, an item that the menu hides although [App] shows a page on its
    route is [Settings], and the role is [other]. *)
Theorem menu_hides_only_settings_from_other
    (auth : AuthState) (u : User) (item : SidebarView.MenuItem)
    (m : App.Matched) (page : App.Page) :
  isLoading auth = false →
  isAuthenticated auth = true →
  user auth = Some u →
  item ∈ SidebarView.menuItems →
  Sidebar.hasPermission (Some u) (SidebarView.permission item)
  = Return false →
  App.route_of (SidebarView.path item) = Some m →
  App.screen (App.App m auth) = App.Shows page →
  SidebarView.path item = "/settings" ∧ role u = UserRole.OTHER.
Proof.
  intros Hload Hauth Huser Hitem Hperm Hroute Hpage.
  pose proof (hasPermission_Return_role _ _ _ Hperm) as Hrole.
  rewrite (signed_in_state auth u Hload Hauth Huser) in Hpage.
  revert Hpage. generalize (error auth) (token auth). intros err tok Hpage.
  apply menuItems_cases in Hitem.
  role_cases Hrole;
    rewrite (user_with_role u _ Hrole) in Hperm, Hpage;
    destruct Hitem as [-> | [-> | [-> | [-> | [-> | ->]]]]];
    first [ discriminate Hperm
          | injection Hroute as <-; vm_compute in Hpage; discriminate Hpage
          | split; [reflexivity | exact Hrole] ].
Qed.

(** X18. At most one entry of the menu is selected: two entries whose
    buttons are both [selected] are the same entry. *)
Theorem menu_selects_at_most_one
    (user : option User) (pathname : string)
    (entries : list (option SidebarView.ListItem))
    (e1 e2 : SidebarView.ListItem) :
  SidebarView.menu user pathname = Return entries →
  Some e1 ∈ entries →
  Some e2 ∈ entries →
  SidebarView.selected e1 = true →
  SidebarView.selected e2 = true →
  e1 = e2.
Proof.
  intros Hmenu He1 He2.
  destruct (menu_entry _ _ _ _ Hmenu He1) as (i1 & Hi1 & _ & ->).
  destruct (menu_entry _ _ _ _ Hmenu He2) as (i2 & Hi2 & _ & ->).
  cbn [SidebarView.selected]. intros Hs1 Hs2.
  apply String.eqb_eq in Hs1, Hs2.
  assert (Hpath : SidebarView.path i1 = SidebarView.path i2) by congruence.
  apply menuItems_cases in Hi1, Hi2.
  destruct Hi1 as [-> | [-> | [-> | [-> | [-> | ->]]]]];
    destruct Hi2 as [-> | [-> | [-> | [-> | [-> | ->]]]]];
    first [ reflexivity | discriminate Hpath ].
Qed.

Lemma getRoleColor_default (r : string) :
  SidebarView.getRoleColor r = "#757575"
  ↔ r ∉ [UserRole.MANAGEMENT; UserRole.DEVOPS; UserRole.QA; UserRole.DEV].
Proof.
  unfold SidebarView.getRoleColor.
  rewrite !not_elem_of_cons.
  destruct (String.eqb_spec r UserRole.MANAGEMENT);
    [split; [discriminate | tauto] |].
  destruct (String.eqb_spec r UserRole.DEVOPS);
    [split; [discriminate | tauto] |].
  destruct (String.eqb_spec r UserRole.QA);
    [split; [discriminate | tauto] |].
  destruct (String.eqb_spec r UserRole.DEV);
    [split; [discriminate | tauto] |].
  split; [intros _ | reflexivity].
  repeat (split; [assumption |]). apply not_elem_of_nil.
Qed.

(** X19. The colour of the chip is the default grey exactly for the
    roles other than [management], [devops], [qa] and [dev]; the five
    roles of the enum have five different colours; and the chip of the
    sidebar is grey exactly when there is no user or the user's role is
    none of those four. *)
Theorem getRoleColor_default_iff (r r' : string) (user : option User) :
  (SidebarView.getRoleColor r = "#757575"
   ↔ r ∉ [UserRole.MANAGEMENT; UserRole.DEVOPS; UserRole.QA; UserRole.DEV])
  ∧ (r ∈ UserRole.members → r' ∈ UserRole.members →
     SidebarView.getRoleColor r = SidebarView.getRoleColor r' → r = r')
  ∧ (SidebarView.getRoleColor (SidebarView.chip_role user) = "#757575"
     ↔ ∀ u, user = Some u →
            role u ∉ [UserRole.MANAGEMENT; UserRole.DEVOPS; UserRole.QA;
                      UserRole.DEV]).
Proof.
  split; [apply getRoleColor_default |]. split.
  - intros Hr Hr'. role_cases Hr; role_cases Hr'; subst r r';
      first [ reflexivity | vm_compute; discriminate ].
  - unfold SidebarView.chip_role. destruct user as [u |].
    + destruct (String.eqb_spec (role u) "") as [Hempty | Hfull].
      * split; [| reflexivity].
        intros _ u' [= <-]. rewrite Hempty.
        apply (bool_decide_eq_false_1 _). vm_compute. reflexivity.
      * rewrite getRoleColor_default. split.
        -- by intros Hout u' [= <-].
        -- intros Hall. by apply Hall.
    + split; [discriminate | reflexivity].
Qed.

(** X20. Who is shown what. A page on the screen is the login page, on
    its route and for a session that is not authenticated; or the
    not-found page, on the catch-all route; or a page of the dashboard,
    for an authenticated session with a user: the performance page only
    for the roles [devops], [qa], [dev] and [management], the alerts page
    only for [devops] and [management], the users page only for
    [management]. No page is shown while the session is restored. *)
Theorem App_shows_pages_to_allowed_roles
    (m : App.Matched) (auth : AuthState) (page : App.Page) :
  App.screen (App.App m auth) = App.Shows page →
  isLoading auth = false
  ∧ ((page = App.Login ∧ m = App.AtLogin ∧ isAuthenticated auth = false)
     ∨ (page = App.NotFound ∧ m = App.AtNoMatch)
     ∨ (isAuthenticated auth = true
        ∧ ∃ u, user auth = Some u
               ∧ (page = App.Dashboard
                  ∨ page = App.SystemHealth
                  ∨ page = App.Settings
                  ∨ (page = App.Performance
                     ∧ role u ∈ [UserRole.DEVOPS; UserRole.QA; UserRole.DEV;
                                 UserRole.MANAGEMENT])
                  ∨ (page = App.Alerts
                     ∧ role u ∈ [UserRole.DEVOPS; UserRole.MANAGEMENT])
                  ∨ (page = App.Users
                     ∧ role u ∈ [UserRole.MANAGEMENT])))).
Proof.
  unfold App.App, App.outlet, Guard.ProtectedRoute, Guard.includes.
  destruct (isLoading auth); [discriminate |].
  intros Hscreen. split; [reflexivity |].
  destruct m; cbn in Hscreen.
  - destruct (isAuthenticated auth); [discriminate |].
    injection Hscreen as <-. by left.
  - destruct (isAuthenticated auth), (user auth); discriminate.
  - destruct (isAuthenticated auth), (user auth) as [u |]; try discriminate.
    injection Hscreen as <-. right. right. eauto 10.
  - destruct (isAuthenticated auth), (user auth) as [u |]; try discriminate.
    injection Hscreen as <-. right. right. eauto 10.
  - destruct (isAuthenticated auth), (user auth) as [u |]; try discriminate.
    cbn in Hscreen.
    destruct (bool_decide_reflect
                (role u ∈ [UserRole.DEVOPS; UserRole.QA; UserRole.DEV;
                           UserRole.MANAGEMENT])) as [Hin | Hout];
      [| discriminate].
    injection Hscreen as <-. right. right. eauto 10.
  - destruct (isAuthenticated auth), (user auth) as [u |]; try discriminate.
    cbn in Hscreen.
    destruct (bool_decide_reflect
                (role u ∈ [UserRole.DEVOPS; UserRole.MANAGEMENT]))
      as [Hin | Hout]; [| discriminate].
    injection Hscreen as <-. right. right. eauto 10.
  - destruct (isAuthenticated auth), (user auth) as [u |]; try discriminate.
    cbn in Hscreen.
    destruct (bool_decide_reflect (role u ∈ [UserRole.MANAGEMENT]))
      as [Hin | Hout]; [| discriminate].
    injection Hscreen as <-. right. right. eauto 10.
  - destruct (isAuthenticated auth), (user auth) as [u |]; try discriminate.
    injection Hscreen as <-. right. right. eauto 10.
  - injection Hscreen as <-. right. by left.
Qed.

(** The screen of each route for a restored, authenticated session with
    a user. *)
Lemma App_screen_signed_in (m : App.Matched) (u : User)
    (err tok : option string) :
  App.screen (App.App m (mkAuthState (Some u) true false err tok))
  = match m with
    | App.AtLogin | App.AtIndex => App.GoesTo "/dashboard"
    | App.AtDashboard => App.Shows App.Dashboard
    | App.AtSystemHealth => App.Shows App.SystemHealth
    | App.AtPerformance =>
        if bool_decide (role u ∈ [UserRole.DEVOPS; UserRole.QA; UserRole.DEV;
                                  UserRole.MANAGEMENT])
        then App.Shows App.Performance else App.GoesTo "/dashboard"
    | App.AtAlerts =>
        if bool_decide (role u ∈ [UserRole.DEVOPS; UserRole.MANAGEMENT])
        then App.Shows App.Alerts else App.GoesTo "/dashboard"
    | App.AtUsers =>
        if bool_decide (role u ∈ [UserRole.MANAGEMENT])
        then App.Shows App.Users else App.GoesTo "/dashboard"
    | App.AtSettings => App.Shows App.Settings
    | App.AtNoMatch => App.Shows App.NotFound
    end.
Proof.
  destruct m; try reflexivity;
    unfold App.App, App.outlet, Guard.ProtectedRoute, Guard.includes; cbn;
    match goal with
    | |- context [bool_decide ?P] => destruct (bool_decide P)
    end; reflexivity.
Qed.

(** X21. Unless the store says authenticated and has no user, [App]
    comes to rest after at most one navigation, on whatever route it
    starts: on the progress indicator while the session is restored, and
    otherwise on a page. A session that is not authenticated comes to
    rest on the login page from every route but the catch-all. *)
Theorem App_settles_after_one_navigation
    (m : App.Matched) (auth : AuthState) :
  ¬ (isAuthenticated auth = true ∧ user auth = None) →
  ∃ s,
    App.settle_at 1 m auth = Some s
    ∧ (s = App.Progress ∧ isLoading auth = true
       ∨ ∃ page, s = App.Shows page ∧ isLoading auth = false)
    ∧ (isLoading auth = false → isAuthenticated auth = false →
       m ≠ App.AtNoMatch → s = App.Shows App.Login).
Proof.
  destruct auth as [ou ia il err tok]; cbn [isAuthenticated user isLoading].
  intros Hconsistent.
  destruct il.
  { exists App.Progress. split; [reflexivity |]. split; [by left |].
    discriminate. }
  destruct ia.
  - destruct ou as [u |]; [| exfalso; by apply Hconsistent].
    pose proof (App_screen_signed_in App.AtDashboard u err tok) as Hdash.
    unfold App.settle_at. rewrite (App_screen_signed_in m).
    destruct m;
      try match goal with
          | |- context [bool_decide ?P] => destruct (bool_decide P)
          end;
      cbn [App.route_of String.eqb Ascii.eqb Bool.eqb]; rewrite ?Hdash;
      (eexists; split; [reflexivity |];
       split; [right; eauto | discriminate]).
  - destruct m;
      (eexists; split;
       [ destruct ou; reflexivity
       | split; [right; eauto | intros _ _ Hm; try reflexivity; done] ]).
Qed.

(** X22. A store that says authenticated and has no user never comes to
    rest: the login route sends to [/dashboard], every route under the
    guard sends to [/login], and so on, for any number of navigations. *)
Theorem App_redirects_without_end
    (hops : nat) (m : App.Matched) (auth : AuthState) :
  isLoading auth = false →
  isAuthenticated auth = true →
  user auth = None →
  m ≠ App.AtNoMatch →
  App.settle_at hops m auth = None.
Proof.
  destruct auth as [ou ia il err tok]; cbn [isAuthenticated user isLoading].
  intros -> -> ->. revert m.
  induction hops as [| hops IH]; intros m Hm;
    destruct m; try contradiction; try reflexivity;
    cbn; apply IH; discriminate.
Qed.

(* ===================================================================== *)
(** * Properties of the dashboard slice *)
(* ===================================================================== *)

Section DashboardSliceProperties.

Variable number : Type.

Local Abbreviation Action := (DashboardSlice.Action number).
Local Abbreviation reducer := (DashboardSlice.reducer number).
Local Abbreviation after := (DashboardSlice.after number).
Local Abbreviation last_fetch := (DashboardSlice.last_fetch number).
Local Abbreviation pending := (DashboardSlice.fetchDashboardData_pending number).
Local Abbreviation rejected :=
  (DashboardSlice.fetchDashboardData_rejected number).

Lemma reducer_flags_agree (actions : list Action) s seen :
  DashboardSlice.flags_agree number s seen →
  DashboardSlice.flags_agree number (fold_left reducer actions s)
    (last_fetch actions seen).
Proof.
  revert s seen. induction actions as [| a rest IH]; intros s seen Hs;
    [exact Hs |].
  destruct Hs as [Hl He].
  destruct a as [| p | | p | p |]; cbn [fold_left DashboardSlice.last_fetch];
    apply IH; unfold DashboardSlice.flags_agree; cbn.
  - split; [exact Hl | discriminate].
  - split; [exact Hl | exact He].
  - split; [done | discriminate].
  - split; [| discriminate]. split; discriminate.
  - split; [split; discriminate |]. by intros e ->.
  - split; [exact Hl | exact He].
Qed.

(** X23. In a store that started from [initialState], whatever actions
    were dispatched: [isLoading] is set exactly when the last action of
    the fetch among them is [pending]; and an error in the state is the
    payload of a rejection that is the last action of the fetch. So no
    state is loading and in error at once, and an error never outlives
    the next fetch. *)
Theorem dashboard_flags_follow_last_fetch (actions : list Action) :
  (DashboardSlice.isLoading number (after actions) = true
   ↔ last_fetch actions None = Some pending)
  ∧ (∀ e, DashboardSlice.error number (after actions) = Some e →
          last_fetch actions None = Some (rejected (Some e)))
  ∧ (DashboardSlice.isLoading number (after actions) = true →
     DashboardSlice.error number (after actions) = None).
Proof.
  destruct (reducer_flags_agree actions
              (DashboardSlice.initialState number) None) as [Hl He].
  { split; [split; discriminate | discriminate]. }
  split; [exact Hl |]. split; [exact He |].
  intros Hloading. apply Hl in Hloading.
  destruct (DashboardSlice.error number (after actions)) as [e |] eqn:Herr;
    [| reflexivity].
  apply He in Herr. unfold DashboardSlice.after in *. congruence.
Qed.

Lemma reducer_keeps_lists_with_metrics (actions : list Action) s :
  (DashboardSlice.metrics number s = None →
   DashboardSlice.performanceData number s = []
   ∧ DashboardSlice.alertData number s = []
   ∧ DashboardSlice.recentAlerts number s = []) →
  DashboardSlice.metrics number (fold_left reducer actions s) = None →
  DashboardSlice.performanceData number (fold_left reducer actions s) = []
  ∧ DashboardSlice.alertData number (fold_left reducer actions s) = []
  ∧ DashboardSlice.recentAlerts number (fold_left reducer actions s) = [].
Proof.
  revert s. induction actions as [| a rest IH]; intros s Hs; [exact Hs |].
  cbn [fold_left]. apply IH.
  destruct a; cbn; first [exact Hs | discriminate].
Qed.

(** X24. In a store that started from [initialState], whatever actions
    were dispatched: as long as there are no metrics, there are no
    performance data, no alert data and no recent alerts either; the
    lists are filled only by a fulfilled fetch, which also sets the
    metrics, and nothing clears the metrics again. *)
Theorem dashboard_lists_come_with_metrics (actions : list Action) :
  DashboardSlice.metrics number (after actions) = None →
  DashboardSlice.performanceData number (after actions) = []
  ∧ DashboardSlice.alertData number (after actions) = []
  ∧ DashboardSlice.recentAlerts number (after actions) = [].
Proof.
  apply reducer_keeps_lists_with_metrics. done.
Qed.

End DashboardSliceProperties.

(* ===================================================================== *)
(** * The further properties at sample runs *)
(* ===================================================================== *)

(** X1, witness: both tokens have expired. *)
Lemma apiClient_leaves_refreshes_or_expires_witness :
  (2 ≤ 2)%nat
  ∧ ∃ outcome w',
      AuthService.apiClient Sample.base Sample.expired_for_good 2
        Sample.get_metrics Sample.holding_tokens = Some (outcome, w')
      ∧ ((localStorage w' = localStorage Sample.holding_tokens
          ∧ location_href w' = location_href Sample.holding_tokens)
         ∨ (∃ rt t,
              getItem "refreshToken" Sample.holding_tokens = Some rt
              ∧ localStorage w'
                = <["token" := t]> (localStorage Sample.holding_tokens)
              ∧ location_href w' = location_href Sample.holding_tokens)
         ∨ (localStorage w'
            = delete "refreshToken"
                (delete "token" (localStorage Sample.holding_tokens))
            ∧ location_href w' = "/login")).
Proof.
  split; [lia |].
  apply (apiClient_leaves_refreshes_or_expires Sample.base
           Sample.expired_for_good 2 Sample.get_metrics
           Sample.holding_tokens).
  lia.
Defined.

(** X2, witness: a key of another part of the application. *)
Lemma authService_writes_two_keys_witness :
  ∃ outcome w',
    AuthService.logout Sample.base Sample.unreachable 2
      (setItem "persist:root" "{}" Sample.holding_tokens)
    = Some (outcome, w')
    ∧ getItem "persist:root" w' = Some "{}".
Proof.
  destruct (authService_writes_two_keys Sample.base Sample.unreachable 2
              "persist:root" Sample.get_metrics Sample.credentials
              (setItem "persist:root" "{}" Sample.holding_tokens))
    as (_ & _ & (outcome & w' & Hrun & Hkey) & _);
    [lia | discriminate | discriminate |].
  exists outcome, w'. split; [exact Hrun |]. rewrite Hkey. reflexivity.
Defined.

(** X3, witness: a browser that holds both tokens. *)
Lemma authService_keeps_tokens_paired_witness :
  ∃ outcome w',
    AuthService.apiClient Sample.base Sample.expired_then_refreshed 2
      Sample.get_metrics Sample.holding_tokens = Some (outcome, w')
    ∧ (is_Some (getItem "token" w') ↔ is_Some (getItem "refreshToken" w')).
Proof.
  destruct (authService_keeps_tokens_paired Sample.base
              Sample.expired_then_refreshed 2 Sample.get_metrics
              Sample.credentials Sample.holding_tokens)
    as (Hrun & _); [lia | | exact Hrun].
  split; intros _; eexists; reflexivity.
Defined.

(** X4, witness: [logout] while the backend cannot be reached. *)
Lemma logout_removes_exactly_the_tokens_witness :
  (2 ≤ 2)%nat
  ∧ ∃ outcome w',
      AuthService.logout Sample.base Sample.unreachable 2
        Sample.holding_tokens = Some (outcome, w')
      ∧ localStorage w'
        = delete "refreshToken"
            (delete "token" (localStorage Sample.holding_tokens)).
Proof.
  split; [lia |].
  apply (logout_removes_exactly_the_tokens Sample.base Sample.unreachable 2
           Sample.holding_tokens).
  lia.
Defined.

(** X5, witness: no reply at all. *)
Lemma apiClient_passes_other_replies_witness :
  AuthService.apiClient Sample.base Sample.unreachable 1
    Sample.get_metrics Sample.holding_tokens
  = Some (Rejected
            (OfAxios (mkError (AuthService.request_interceptor
                                 Sample.get_metrics Sample.holding_tokens)
                              None)),
          record_sent (first_call Sample.get_metrics Sample.holding_tokens)
            Sample.holding_tokens).
Proof.
  apply (apiClient_passes_other_replies Sample.base Sample.unreachable 1
           Sample.get_metrics Sample.holding_tokens); [lia |].
  intros body. vm_compute. discriminate.
Defined.

(** X6, witness: the repeated request is answered with a 401 again, and
    the tokens stay. *)
Lemma apiClient_repeat_keeps_session_witness :
  ∃ outcome w',
    AuthService.apiClient Sample.base Sample.expired_then_refreshed 2
      Sample.get_metrics Sample.holding_tokens = Some (outcome, w')
    ∧ getItem "token" w' = Some "fresh"
    ∧ getItem "refreshToken" w' = Some "r0"
    ∧ location_href w' = "/dashboard".
Proof.
  destruct (apiClient_repeat_keeps_session Sample.base
              Sample.expired_then_refreshed 2 Sample.get_metrics
              Sample.holding_tokens Sample.no_data "r0" 200
              Sample.fresh_token)
    as (outcome & w' & Hrun & _ & Htok & Href & Hhref);
    [lia | reflexivity ..|].
  exists outcome, w'. repeat (split; [assumption |]). exact Hhref.
Defined.

(** X7, witness: an empty storage. *)
Lemma refreshToken_without_refresh_token_witness :
  truthy (getItem "refreshToken" Sample.blank) = false
  ∧ AuthService.refreshToken Sample.base Sample.refreshing Sample.blank
    = (Rejected (OfError "No refresh token available"), Sample.blank).
Proof.
  split; [reflexivity |].
  apply (refreshToken_without_refresh_token Sample.base Sample.refreshing
           Sample.blank).
  reflexivity.
Defined.

(** X8, witness: a refresh while the backend cannot be reached. *)
Lemma refreshToken_failure_keeps_tokens_witness :
  ∃ e w',
    AuthService.refreshToken Sample.base Sample.unreachable
      Sample.holding_tokens = (Rejected (OfAxios e), w')
    ∧ localStorage w' = localStorage Sample.holding_tokens
    ∧ location_href w' = location_href Sample.holding_tokens.
Proof.
  destruct (refreshToken_failure_keeps_tokens Sample.base Sample.unreachable
              Sample.holding_tokens "r0")
    as (e & w' & Hrun & _ & Hls & Hhref & _); [reflexivity .. |].
  exists e, w'. split; [exact Hrun |]. split; assumption.
Defined.

(** X9, witness: [/auth/me] answers with the token [a1] while the
    storage holds [stale]; the storage keeps [stale]. *)
Lemma checkAuthStatus_stores_nothing_witness :
  ∃ w',
    AuthService.checkAuthStatus Sample.base Sample.accepting 1
      Sample.holding_tokens
    = Some (Fulfilled (mkLoginResponse (Some Sample.operator) "a1" "r0"), w')
    ∧ getItem "token" w' = Some "stale".
Proof.
  destruct (checkAuthStatus_stores_nothing Sample.base Sample.accepting 1
              Sample.holding_tokens)
    as (outcome & w' & Hrun & Hls & _ & Hok & _);
    [lia | intros body; vm_compute; discriminate |].
  exists w'. rewrite Hrun.
  rewrite (Hok 200 Sample.welcome) by reflexivity.
  split; [reflexivity |]. unfold getItem. rewrite Hls. reflexivity.
Defined.

(** X10, witness: after a login with the token [a1], a request carries
    [Bearer a1]. *)
Lemma login_then_requests_carry_bearer_witness :
  AuthService.login Sample.base Sample.accepting 1 Sample.credentials
    Sample.blank
  = Some (Fulfilled (mkLoginResponse (Some Sample.operator) "a1" "r1"),
          Scenario.after_login)
  ∧ headers (AuthService.request_interceptor Sample.get_metrics
               Scenario.after_login) !! "Authorization"
    = Some "Bearer a1".
Proof.
  assert (Hrun : AuthService.login Sample.base Sample.accepting 1
                   Sample.credentials Sample.blank
                 = Some (Fulfilled
                           (mkLoginResponse (Some Sample.operator) "a1" "r1"),
                         Scenario.after_login)) by reflexivity.
  split; [exact Hrun |].
  destruct (login_then_requests_carry_bearer Sample.base Sample.accepting 1
              Sample.credentials Sample.blank Scenario.after_login _
              Sample.get_metrics Hrun) as [Hbearer _].
  apply Hbearer. discriminate.
Defined.

(** X11, witness: after [logout], a request carries its own headers
    only. *)
Lemma logout_then_requests_carry_nothing_witness :
  (2 ≤ 2)%nat
  ∧ ∃ outcome w',
      AuthService.logout Sample.base Sample.unreachable 2
        Sample.holding_tokens = Some (outcome, w')
      ∧ AuthService.request_interceptor Sample.get_metrics w'
        = Sample.get_metrics.
Proof.
  split; [lia |].
  apply (logout_then_requests_carry_nothing Sample.base Sample.unreachable 2
           Sample.holding_tokens Sample.get_metrics).
  lia.
Defined.

(** X12, witness: a login, then [/auth/me]. *)
Lemma login_then_checkAuthStatus_witness :
  ∃ w2,
    AuthService.checkAuthStatus Sample.base Scenario.login_then_me 1
      Scenario.after_login
    = Some (Fulfilled (mkLoginResponse None "fresh" "r1"), w2)
    ∧ getItem "token" w2 = Some "a1"
    ∧ getItem "refreshToken" w2 = Some "r1".
Proof.
  apply (login_then_checkAuthStatus Sample.base Scenario.login_then_me 1 1
           Sample.credentials Sample.blank Scenario.after_login
           (mkLoginResponse (Some Sample.operator) "a1" "r1") 200
           Sample.fresh_token);
    [reflexivity | lia | reflexivity | reflexivity].
Defined.

(** X14, witness: what a guest may read, a developer may read. *)
Lemma RolePermissions_ladder_witness :
  Sidebar.hasPermission (Some Scenario.guest) "system-health:read"
  = Return true
  ∧ Sidebar.hasPermission (Some Scenario.developer) "system-health:read"
    = Return true.
Proof.
  assert (Hguest : Sidebar.hasPermission (Some Scenario.guest)
                     "system-health:read" = Return true) by reflexivity.
  split; [exact Hguest |].
  apply (RolePermissions_ladder Scenario.guest Scenario.developer
           "system-health:read"); [| exact Hguest].
  apply (bool_decide_unpack _). vm_compute. exact I.
Defined.

(** X16, witness: the alerts entry of a devops user's menu. *)
Lemma menu_entries_lead_to_pages_witness :
  ∃ m page,
    App.route_of "/alerts" = Some m
    ∧ App.screen (App.App m (Sample.signed_in Sample.operator))
      = App.Shows page.
Proof.
  destruct (menu_entries_lead_to_pages (Sample.signed_in Sample.operator)
              Sample.operator "/alerts"
              [Some (SidebarView.mkListItem "Dashboard" false "/dashboard");
               Some (SidebarView.mkListItem "System Health" false
                       "/system-health");
               Some (SidebarView.mkListItem "Performance" false
                       "/performance");
               Some Scenario.alerts_entry;
               None;
               Some (SidebarView.mkListItem "Settings" false "/settings")]
              Scenario.alerts_entry)
    as (m & page & Hroute & Hscreen & _);
    [reflexivity | reflexivity | reflexivity | reflexivity | |].
  - rewrite !elem_of_cons. do 3 right. left. reflexivity.
  - exists m, page. split; assumption.
Defined.

(** X17, witness: a guest is shown the settings page on its route and
    has no entry for it in the menu. *)
Lemma menu_hides_only_settings_from_other_witness :
  Sidebar.hasPermission (Some Scenario.guest) "settings:read" = Return false
  ∧ App.screen (App.App App.AtSettings (Sample.signed_in Scenario.guest))
    = App.Shows App.Settings
  ∧ role Scenario.guest = UserRole.OTHER.
Proof.
  split; [reflexivity |]. split; [reflexivity |].
  apply (menu_hides_only_settings_from_other
           (Sample.signed_in Scenario.guest) Scenario.guest
           (SidebarView.mkMenuItem "Settings" "/settings" "settings:read")
           App.AtSettings App.Settings);
    try reflexivity.
  unfold SidebarView.menuItems. rewrite !elem_of_cons.
  do 5 right. left. reflexivity.
Defined.

(** X18, witness: on [/alerts], the menu of a devops user has the alerts
    entry selected. *)
Lemma menu_selects_at_most_one_witness :
  SidebarView.menu (Some Sample.operator) "/alerts"
  = Return
      [Some (SidebarView.mkListItem "Dashboard" false "/dashboard");
       Some (SidebarView.mkListItem "System Health" false "/system-health");
       Some (SidebarView.mkListItem "Performance" false "/performance");
       Some Scenario.alerts_entry;
       None;
       Some (SidebarView.mkListItem "Settings" false "/settings")]
  ∧ SidebarView.selected Scenario.alerts_entry = true
  ∧ Scenario.alerts_entry = Scenario.alerts_entry.
Proof.
  split; [reflexivity |]. split; [reflexivity |].
  apply (menu_selects_at_most_one (Some Sample.operator) "/alerts"
           [Some (SidebarView.mkListItem "Dashboard" false "/dashboard");
            Some (SidebarView.mkListItem "System Health" false
                    "/system-health");
            Some (SidebarView.mkListItem "Performance" false "/performance");
            Some Scenario.alerts_entry;
            None;
            Some (SidebarView.mkListItem "Settings" false "/settings")]);
    [reflexivity | | | reflexivity | reflexivity];
    rewrite !elem_of_cons; do 3 right; left; reflexivity.
Defined.

(** X20, witness: the users page, shown to a manager. *)
Lemma App_shows_pages_to_allowed_roles_witness :
  App.screen (App.App App.AtUsers (Sample.signed_in Sample.manager))
  = App.Shows App.Users
  ∧ isLoading (Sample.signed_in Sample.manager) = false.
Proof.
  assert (Hscreen : App.screen (App.App App.AtUsers
                                  (Sample.signed_in Sample.manager))
                    = App.Shows App.Users) by reflexivity.
  split; [exact Hscreen |].
  apply (App_shows_pages_to_allowed_roles App.AtUsers
           (Sample.signed_in Sample.manager) App.Users Hscreen).
Defined.

(** X21, witness: a visitor who is not signed in, on the users route. *)
Lemma App_settles_after_one_navigation_witness :
  ∃ s,
    App.settle_at 1 App.AtUsers Sample.signed_out = Some s
    ∧ s = App.Shows App.Login.
Proof.
  destruct (App_settles_after_one_navigation App.AtUsers Sample.signed_out)
    as (s & Hrun & _ & Hlogin).
  - intros [Hauth _]. discriminate Hauth.
  - exists s. split; [exact Hrun |].
    apply Hlogin; [reflexivity | reflexivity | discriminate].
Defined.

(** X22, witness: five navigations from the login route. *)
Lemma App_redirects_without_end_witness :
  App.settle_at 5 App.AtLogin Scenario.half_restored = None.
Proof.
  apply (App_redirects_without_end 5 App.AtLogin Scenario.half_restored);
    [reflexivity | reflexivity | reflexivity | discriminate].
Defined.

(** X24, witness: a fetch that failed leaves the lists empty. *)
Lemma dashboard_lists_come_with_metrics_witness :
  DashboardSlice.metrics Z (DashboardSlice.after Z Scenario.failed_fetch)
  = None
  ∧ DashboardSlice.performanceData Z
      (DashboardSlice.after Z Scenario.failed_fetch) = [].
Proof.
  split; [reflexivity |].
  apply (dashboard_lists_come_with_metrics Z Scenario.failed_fetch).
  reflexivity.
Defined.

(* ===================================================================== *)
(** * Properties of the dashboard page *)
(* ===================================================================== *)

(** [>=] is transitive. *)
Lemma ge_trans (a b c : DashboardPage.number) :
  DashboardPage.ge a b = true → DashboardPage.ge b c = true →
  DashboardPage.ge a c = true.
Proof.
  destruct a as [| | x |], b as [| | y |], c as [| | z |]; cbn;
    try discriminate; try reflexivity.
  rewrite !QArith_base.Qle_bool_iff. intros Hyx Hzy.
  exact (QArith_base.Qle_trans _ _ _ Hzy Hyx).
Qed.

(** X25. The icon of a metric and the colour of its bar never disagree:
    for every number, [NaN] and the infinities included, the colour of
    the icon is the colour [getMetricColor] returns, and the glyph is the
    one of that colour. *)
Theorem metric_icon_matches_color (value : DashboardPage.number) :
  DashboardPage.color (DashboardPage.getMetricIcon value)
  = DashboardPage.getMetricColor value
  ∧ (DashboardPage.glyph (DashboardPage.getMetricIcon value)
     = DashboardPage.Error
     ↔ DashboardPage.getMetricColor value = "error")
  ∧ (DashboardPage.glyph (DashboardPage.getMetricIcon value)
     = DashboardPage.Warning
     ↔ DashboardPage.getMetricColor value = "warning")
  ∧ (DashboardPage.glyph (DashboardPage.getMetricIcon value)
     = DashboardPage.CheckCircle
     ↔ DashboardPage.getMetricColor value = "success").
Proof.
  unfold DashboardPage.getMetricIcon, DashboardPage.getMetricColor.
  destruct (DashboardPage.ge value (DashboardPage.literal 80));
    [| destruct (DashboardPage.ge value (DashboardPage.literal 60))];
    cbn; repeat split; first [reflexivity | discriminate].
Qed.

(** X26. The colour of a metric grows with its value: if [v2 >= v1],
    then [v2] is in error when [v1] is, [v1] is a success when [v2] is,
    and [v2] is not a success when [v1] is a warning. A value that is
    [NaN] is a success. *)
Theorem getMetricColor_monotone (v1 v2 : DashboardPage.number) :
  DashboardPage.ge v2 v1 = true →
  (DashboardPage.getMetricColor v1 = "error" →
   DashboardPage.getMetricColor v2 = "error")
  ∧ (DashboardPage.getMetricColor v2 = "success" →
     DashboardPage.getMetricColor v1 = "success")
  ∧ (DashboardPage.getMetricColor v1 = "warning" →
     DashboardPage.getMetricColor v2 ≠ "success")
  ∧ DashboardPage.getMetricColor DashboardPage.NaN = "success".
Proof.
  intros Hge. unfold DashboardPage.getMetricColor.
  pose proof (ge_trans v2 v1 (DashboardPage.literal 80) Hge) as H80.
  pose proof (ge_trans v2 v1 (DashboardPage.literal 60) Hge) as H60.
  destruct (DashboardPage.ge v1 (DashboardPage.literal 80)).
  { rewrite H80 by reflexivity. repeat split; done. }
  destruct (DashboardPage.ge v1 (DashboardPage.literal 60)).
  { rewrite H60 by reflexivity.
    destruct (DashboardPage.ge v2 (DashboardPage.literal 80));
      repeat split; done. }
  destruct (DashboardPage.ge v2 (DashboardPage.literal 80));
    [repeat split; done |].
  destruct (DashboardPage.ge v2 (DashboardPage.literal 60));
    repeat split; done.
Qed.

(** X26, witness: 85 and 65. *)
Lemma getMetricColor_monotone_witness :
  DashboardPage.ge (DashboardPage.literal 85) (DashboardPage.literal 65)
  = true
  ∧ DashboardPage.getMetricColor (DashboardPage.literal 65) = "warning"
  ∧ DashboardPage.getMetricColor (DashboardPage.literal 85) ≠ "success".
Proof.
  split; [reflexivity |]. split; [reflexivity |].
  destruct (getMetricColor_monotone (DashboardPage.literal 65)
              (DashboardPage.literal 85)) as (_ & _ & Hwarning & _);
    [reflexivity |].
  apply Hwarning. reflexivity.
Defined.

(** X27. The icon of an alert: the error glyph exactly for the severity
    [critical], the warning glyph exactly for [warning], and the colour
    [info] exactly for every severity other than [critical], [warning]
    and [success]; an unknown severity is shown with the glyph of a
    success. *)
Theorem getSeverityIcon_cases (severity : string) :
  (DashboardPage.glyph (DashboardPage.getSeverityIcon severity)
   = DashboardPage.Error ↔ severity = "critical")
  ∧ (DashboardPage.glyph (DashboardPage.getSeverityIcon severity)
     = DashboardPage.Warning ↔ severity = "warning")
  ∧ (DashboardPage.color (DashboardPage.getSeverityIcon severity) = "info"
     ↔ severity ∉ ["critical"; "warning"; "success"])
  ∧ (severity ∉ ["critical"; "warning"; "success"] →
     DashboardPage.getSeverityIcon severity
     = DashboardPage.getSeverityIcon "info").
Proof.
  unfold DashboardPage.getSeverityIcon. rewrite !not_elem_of_cons.
  destruct (String.eqb_spec severity "critical") as [-> | H1];
    [cbn; repeat split; first [done | tauto] |].
  destruct (String.eqb_spec severity "warning") as [-> | H2];
    [cbn; repeat split; first [done | tauto] |].
  destruct (String.eqb_spec severity "success") as [-> | H3];
    [cbn; repeat split; first [done | tauto] |].
  cbn. repeat split;
    first [done | tauto | apply not_elem_of_nil
          | intros _; repeat (split; [assumption |]);
            apply not_elem_of_nil].
Qed.
